(** * AI Patent Explorer: the patent API controller and its workspace guard

    A shallow embedding of the NestJS [PatentController] (ingest, list,
    search, compare, novelty, claim chart, export bundle) and of
    [WorkspaceGuard.canActivate], followed by the properties of the
    alignment / novelty specification checked against them.

    Modelling conventions.
    - A JavaScript [number] is an IEEE 754 binary64 value: Rocq's
      primitive [float].  Array indices and counts are integers ([nat])
      and are converted to [float] where the source computes with them.
    - [Date.now()], [Math.random()], the identifier the database gives a
      saved row and the text the runtime prints for a [number] are ambient
      inputs; they are gathered in an [Env] record that each handler
      receives explicitly.
    - The repositories are in-memory tables (lists of rows).  A patent row
      is saved only if [pub_number], its column declared NOT NULL without
      default, is set.  A handler is a computation in a
      state-and-exception monad over the [Store];
      [try { ... } catch (error) { throw ... }] is [try_catch].
    - The TypeORM queries with paging, ordering and [ILIKE] are library
      behaviour and are taken as [Variable]s of the controller section. *)

From Stdlib Require Import Bool Ascii String List ZArith Lia.
From Stdlib Require Import Decimal DecimalString Uint63 Floats QArith Lqa.
From Stdlib Require Import DecimalPos DecimalZ.
Import ListNotations.

Set Warnings "-inexact-float".
Close Scope Q_scope.
Local Open Scope string_scope.

(* ------------------------------------------------------------------ *)
(** ** JavaScript helpers *)

Module Js.

(** A [number] parsed from a decimal literal or produced by float
    arithmetic. *)
Definition number := float.

(** An array index used as a [number]. Indices are below [2^32], far
    inside the range where the conversion is exact. *)
Definition of_index (index : nat) : number :=
  PrimFloat.of_uint63 (Uint63.of_Z (Z.of_nat index)).

(** [`${n}`] for a non-negative integer [n]. *)
Definition nat_to_string (n : nat) : string :=
  NilZero.string_of_uint (Nat.to_uint n).

(** [`${z}`] for an integer [z]. *)
Definition int_to_string (z : Z) : string :=
  NilZero.string_of_int (Z.to_int z).

(** [s.substr(start, length)]. *)
Definition substr (start length : nat) (s : string) : string :=
  substring start length s.

(** Truthiness of a string: the empty string is falsy. *)
Definition truthy (s : string) : bool :=
  match s with EmptyString => false | _ => true end.

(** [a || b] where [a] may be [undefined] or a string. *)
Definition or_else (a : option string) (b : option string) : option string :=
  match a with
  | Some s => if truthy s then Some s else b
  | None => b
  end.

(** [a || d] with a default that is always defined. *)
Definition or_default (a : option string) (d : string) : string :=
  match a with
  | Some s => if truthy s then s else d
  | None => d
  end.

(** [xs.join(sep)]. *)
Fixpoint join (sep : string) (xs : list string) : string :=
  match xs with
  | [] => ""
  | [x] => x
  | x :: rest => x ++ sep ++ join sep rest
  end.

(** [xs.map((x, index) => f(x, index))]: the callback also gets the
    position of the element. *)
Fixpoint mapi_from {A B : Type} (start : nat) (f : A -> nat -> B)
         (xs : list A) : list B :=
  match xs with
  | [] => []
  | x :: rest => f x start :: mapi_from (S start) f rest
  end.

Definition mapi {A B : Type} (f : A -> nat -> B) (xs : list A) : list B :=
  mapi_from 0 f xs.

(** Closed unit interval on [number]; a NaN is outside of it, since every
    comparison with NaN is false. *)
Definition in_unit_interval (x : number) : bool :=
  (PrimFloat.leb 0 x && PrimFloat.leb x 1)%bool.

(** The exact rational value of a finite [number]. *)
Definition to_Q (x : number) : option Q :=
  match Prim2SF x with
  | S754_zero _ => Some 0%Q
  | S754_finite sign m e =>
      let mag := (inject_Z (Z.pos m) * Qpower 2 e)%Q in
      Some (if sign then Qopp mag else mag)
  | S754_infinity _ | S754_nan => None
  end.

(** The integer a finite [number] stands for, when it is an integer. *)
Definition integer_value (x : number) : option Z :=
  match Prim2SF x with
  | S754_zero _ => Some 0%Z
  | S754_finite sign m e =>
      let signed (v : Z) := if sign then Z.opp v else v in
      if (0 <=? e)%Z then Some (signed (Z.pos m * 2 ^ e)%Z)
      else if (Z.pos m mod 2 ^ (- e) =? 0)%Z
           then Some (signed (Z.pos m / 2 ^ (- e))%Z)
           else None
  | S754_infinity _ | S754_nan => None
  end.

End Js.

Bind Scope float_scope with Js.number.

(* ------------------------------------------------------------------ *)
(** ** HTTP exceptions and the handler monad *)

Module Http.

Definition BAD_REQUEST : nat := 400.
Definition FORBIDDEN : nat := 403.
Definition NOT_FOUND : nat := 404.
Definition INTERNAL_SERVER_ERROR : nat := 500.

(** [new HttpException(message, status)]; a [TypeError] raised by the
    runtime is carried with status 0, only its message is ever read. *)
Record HttpException : Type := mkHttpException {
  message : string;
  status : nat
}.

(** [new ForbiddenException(message)]. *)
Definition ForbiddenException (msg : string) : HttpException :=
  mkHttpException msg FORBIDDEN.

Definition TypeError (msg : string) : HttpException :=
  mkHttpException msg 0.

(** The error of a query the database rejects: like a [TypeError] it is
    no [HttpException]. *)
Definition QueryFailedError (msg : string) : HttpException :=
  mkHttpException msg 0.

(** The message of PostgreSQL for a NOT NULL column that was left
    unset. *)
Definition not_null_violation (column relation : string) : string :=
  let quote := String "034" "" in
  "null value in column " ++ quote ++ column ++ quote
    ++ " of relation " ++ quote ++ relation ++ quote
    ++ " violates not-null constraint".

Definition Result (A : Type) : Type := (HttpException + A)%type.

End Http.
Export Http.

(* ------------------------------------------------------------------ *)
(** ** Entities and request / response shapes *)

(** Dates are milliseconds since the epoch. *)
Definition Date := Z.

Module Patent.
(** The columns of [patents] that the controller reads or writes, and
    [pub_number]: it is NOT NULL without default, and a row built without
    it has none. *)
Record t : Type := mk {
  id : string;
  workspace_id : string;
  pub_number : option string;
  title : string;
  abstract : string;
  prio_date : option Date;
  family_id : option string;
  cpc_codes : list string;
  assignees : list string;
  inventors : list string
}.
End Patent.

Module Claim.
Record t : Type := mk {
  id : string;
  patent_id : string;
  claim_number : Z;
  is_independent : bool;
  text : string
}.
End Claim.

Module Clause.
Record t : Type := mk {
  id : string;
  claim_id : string;
  clause_index : Z;
  clause_type : option string;
  text : string
}.
End Clause.

Module Passage.
Record t : Type := mk {
  id : string;
  patent_id : string;
  passage_index : Z;
  text : string
}.
End Passage.

Module Membership.
Record t : Type := mk {
  user_id : string;
  workspace_id : string;
  role : string
}.
End Membership.

Inductive FileType : Type := xml | pdf_file.
Inductive ChartType : Type := docx | pdf_chart.
Inductive ExportType : Type := zip | pdf_export.
Inductive SearchType : Type := hybrid | bm25 | dense.

Definition ChartType_to_string (c : ChartType) : string :=
  match c with docx => "docx" | pdf_chart => "pdf" end.

Definition ExportType_to_string (e : ExportType) : string :=
  match e with zip => "zip" | pdf_export => "pdf" end.

Module Metadata.
(** [metadata?: Record<string, any>] of an ingest request, with the keys
    the controller looks at. *)
Record t : Type := mk {
  title : option string;
  abstract : option string;
  prio_date : option Date;
  family_id : option string;
  cpc_codes : option (list string);
  assignees : option (list string);
  inventors : option (list string)
}.
End Metadata.

Module SearchFilters.
Record t : Type := mk {
  date_from : option string;
  date_to : option string;
  cpc_codes : option (list string);
  assignees : option (list string)
}.
Definition empty : t := mk None None None None.
End SearchFilters.

Module SearchResult.
(** One element of the mock search results; [patent] is the projection
    [{ id, title, abstract, prio_date }]. *)
Record t : Type := mk {
  patent_id : string;
  score : Js.number;
  search_type : string;
  patent_title : string;
  patent_abstract : string;
  patent_prio_date : option Date
}.
End SearchResult.

Module AlignmentItem.
(** One element of [ComparisonResponse.alignments]. *)
Record t : Type := mk {
  clause_index : nat;
  clause_text : string;
  reference_patent_id : string;
  reference_clause_text : string;
  similarity_score : Js.number;
  alignment_type : string
}.
End AlignmentItem.

Module ClauseDetail.
(** One element of [NoveltyResponse.clause_details]. *)
Record t : Type := mk {
  clause_index : nat;
  clause_text : string;
  novelty_score : Js.number;
  confidence : string
}.
End ClauseDetail.

Module MockNovelty.
(** The object returned by [getMockNovelty]. *)
Record t : Type := mk {
  novelty_score : Js.number;
  obviousness_score : Js.number;
  confidence_band : string;
  clause_details : list ClauseDetail.t
}.
End MockNovelty.

Module PatentIngestRequest.
Record t : Type := mk {
  file_url : string;
  file_type : FileType;
  workspace_id : string;
  metadata : option Metadata.t
}.
End PatentIngestRequest.

Module SearchRequest.
Record t : Type := mk {
  query : string;
  filters : option SearchFilters.t;
  k : option Z;
  search_type : option SearchType
}.
End SearchRequest.

Module CompareRequest.
Record t : Type := mk {
  patent_id : string;
  claim_num : Js.number;
  refs : list string;
  workspace_id : string
}.
End CompareRequest.

Module NoveltyRequest.
Record t : Type := mk {
  patent_id : string;
  claim_num : Js.number;
  workspace_id : string
}.
End NoveltyRequest.

Module ChartRequest.
Record t : Type := mk {
  patent_id : string;
  claim_num : Js.number;
  chart_type : ChartType;
  include_alignments : option bool;
  include_novelty : option bool;
  workspace_id : string
}.
End ChartRequest.

Module ExportRequest.
Record t : Type := mk {
  patent_ids : list string;
  export_type : ExportType;
  include_charts : option bool;
  include_alignments : option bool;
  include_novelty : option bool;
  workspace_id : string
}.
End ExportRequest.

Module IngestResponse.
Record t : Type := mk { patent_id : string; status : string }.
End IngestResponse.

Module PatentListResponse.
Record t : Type := mk {
  patents : list Patent.t;
  total : Z;
  page : Z;
  limit : Z
}.
End PatentListResponse.

Module SearchResponse.
Record t : Type := mk {
  results : list SearchResult.t;
  total : nat;
  search_id : string
}.
End SearchResponse.

Module ComparisonResponse.
Record t : Type := mk {
  comparison_id : string;
  patent_id : string;
  claim_num : Js.number;
  alignments : list AlignmentItem.t;
  status : string
}.
End ComparisonResponse.

Module NoveltyResponse.
Record t : Type := mk {
  novelty_id : string;
  patent_id : string;
  claim_num : Js.number;
  novelty_score : Js.number;
  obviousness_score : Js.number;
  confidence_band : string;
  clause_details : list ClauseDetail.t;
  status : string
}.
End NoveltyResponse.

Module ChartResponse.
Record t : Type := mk {
  chart_id : string;
  patent_id : string;
  claim_num : Js.number;
  chart_type : ChartType;
  file_url : string;
  status : string
}.
End ChartResponse.

Module ExportResponse.
Record t : Type := mk {
  export_id : string;
  patent_ids : list string;
  export_type : ExportType;
  file_url : string;
  status : string
}.
End ExportResponse.

(** The [details] object of an audit-log row, one shape per action. *)
Inductive AuditDetails : Type :=
| IngestDetails (file_url : string) (file_type : FileType)
                (metadata : option Metadata.t)
| SearchDetails (query : string) (filters : option SearchFilters.t) (k : Z)
                (search_type : SearchType) (search_id : string)
| CompareDetails (patent_id : string) (claim_num : Js.number)
                 (refs : list string)
                 (comparison_id : string)
| NoveltyDetails (patent_id : string) (claim_num : Js.number)
                 (novelty_id : string)
| ChartDetails (patent_id : string) (claim_num : Js.number)
               (chart_type : ChartType)
               (chart_id : string)
| ExportDetails (patent_ids : list string) (export_type : ExportType)
                (export_id : string).

Module AuditLog.
Record t : Type := mk {
  workspace_id : string;
  user_id : string;
  action : string;
  resource_type : string;
  resource_id : option string;
  details : AuditDetails
}.
End AuditLog.

Module SearchSession.
Record t : Type := mk {
  workspace_id : string;
  user_id : string;
  query : string;
  filters : SearchFilters.t;
  results : list SearchResult.t
}.
End SearchSession.

(** The repositories behind the controller and the guard, and the console
    the [publish...Event] stubs write to. New rows and lines go last. *)
Record Store : Type := mkStore {
  patents : list Patent.t;
  claims : list Claim.t;
  clauses : list Clause.t;
  passages : list Passage.t;
  memberships : list Membership.t;
  search_sessions : list SearchSession.t;
  audit_log : list AuditLog.t;
  console : list string
}.

(** Ambient values of one request. *)
Record Env : Type := mkEnv {
  now : Z;                 (* Date.now() *)
  random_base36 : string;  (* Math.random().toString(36) *)
  new_uuid : string;       (* primary key given to a saved patent *)
  number_to_string : Js.number -> string
                           (* the text of a number in a template literal *)
}.

Module User.
Record t : Type := mk { id : string }.
End User.

(** The parts of the HTTP request read by the guard and the handlers. *)
Record Request : Type := mkRequest {
  user : option User.t;
  header_x_workspace_id : option string;
  query_workspace_id : option string
}.

(* ------------------------------------------------------------------ *)
(** ** The handler monad *)

Module HandlerMonad.

Definition M (A : Type) : Type := Store -> Result A * Store.

Definition ret {A : Type} (a : A) : M A := fun st => (inr a, st).

Definition throw {A : Type} (e : HttpException) : M A :=
  fun st => (inl e, st).

Definition bind {A B : Type} (m : M A) (k : A -> M B) : M B :=
  fun st =>
    match m st with
    | (inl e, st') => (inl e, st')
    | (inr a, st') => k a st'
    end.

(** [try { body } catch (error) { handler(error) }]; what the body wrote
    before it threw stays written. *)
Definition try_catch {A : Type} (body : M A)
           (handler : HttpException -> M A) : M A :=
  fun st =>
    match body st with
    | (inl e, st') => handler e st'
    | (inr a, st') => (inr a, st')
    end.

Definition gets {A : Type} (f : Store -> A) : M A :=
  fun st => (inr (f st), st).

Definition modify (f : Store -> Store) : M unit :=
  fun st => (inr tt, f st).

Definition run {A : Type} (m : M A) (st : Store) : Result A := fst (m st).

End HandlerMonad.
Export HandlerMonad.

Declare Scope handler_scope.
Delimit Scope handler_scope with handler.
Notation "x <- m ;; k" := (bind m (fun x => k))
  (at level 61, m at next level, right associativity) : handler_scope.
Notation "m ;;; k" := (bind m (fun _ => k))
  (at level 61, right associativity) : handler_scope.
Local Open Scope handler_scope.

(** [console.log(line)]. *)
Definition console_log (line : string) : M unit :=
  modify (fun st =>
    mkStore (patents st) (claims st) (clauses st) (passages st)
            (memberships st) (search_sessions st) (audit_log st)
            (console st ++ [line])).

(** [req.user.id]: reading [id] of an absent user is a [TypeError]. *)
Definition req_user_id (req : Request) : M string :=
  match user req with
  | Some u => ret (User.id u)
  | None => throw (TypeError "Cannot read properties of undefined (reading 'id')")
  end.

(* ------------------------------------------------------------------ *)
(** ** WorkspaceGuard *)

Module WorkspaceGuard.

(** [membershipRepository.findOne({ where: { user_id, workspace_id } })]. *)
Definition membership_findOne (user_id workspace_id : string)
  : M (option Membership.t) :=
  gets (fun st =>
    find (fun m => (Membership.user_id m =? user_id)
                   && (Membership.workspace_id m =? workspace_id))%bool
         (memberships st)).

(** [canActivate]; [body_workspace_id] is [request.body?.workspace_id]. *)
Definition canActivate (request : Request)
           (body_workspace_id : option string) : M bool :=
  let workspaceId :=
    Js.or_else (Js.or_else (header_x_workspace_id request) body_workspace_id)
               (query_workspace_id request) in
  match user request, workspaceId with
  | Some u, Some ws =>
      if Js.truthy ws then
        membership <- membership_findOne (User.id u) ws ;;
        match membership with
        | None => throw (ForbiddenException "Access denied to workspace")
        | Some _ => ret true
        end
      else throw (ForbiddenException "User or workspace not specified")
  | _, _ => throw (ForbiddenException "User or workspace not specified")
  end.

End WorkspaceGuard.

(* ------------------------------------------------------------------ *)
(** ** PatentController *)

Module PatentController.

(** [hasWorkspaceAccess]: the body is a TODO followed by [return true]. *)
Definition hasWorkspaceAccess (user_id workspace_id : string) : bool := true.

(** [`${prefix}_${Date.now()}_${Math.random().toString(36).substr(2, 9)}`] *)
Definition generateId (prefix : string) (env : Env) : string :=
  prefix ++ "_" ++ Js.int_to_string (now env) ++ "_"
         ++ Js.substr 2 9 (random_base36 env).

Definition generateSearchId : Env -> string := generateId "search".
Definition generateComparisonId : Env -> string := generateId "compare".
Definition generateNoveltyId : Env -> string := generateId "novelty".
Definition generateChartId : Env -> string := generateId "chart".
Definition generateExportId : Env -> string := generateId "export".

(** The row selected by [where: { id: patent_id, workspace_id }]. *)
Definition lookup_patent (patent_id workspace_id : string)
           (rows : list Patent.t) : option Patent.t :=
  find (fun p => (Patent.id p =? patent_id)
                 && (Patent.workspace_id p =? workspace_id))%bool
       rows.

(** [patentRepository.findOne({ where: { id: patent_id, workspace_id } })]. *)
Definition patent_findOne (patent_id workspace_id : string)
  : M (option Patent.t) :=
  gets (fun st => lookup_patent patent_id workspace_id (patents st)).

(** [patentRepository.save(patent)] of a new row: the database rejects a
    row without [pub_number]; to a row it accepts it gives its primary
    key. *)
Definition patent_save (env : Env) (p : Patent.t) : M Patent.t :=
  match Patent.pub_number p with
  | None =>
      throw (QueryFailedError (not_null_violation "pub_number" "patents"))
  | Some _ =>
      let saved :=
        Patent.mk (new_uuid env) (Patent.workspace_id p)
                  (Patent.pub_number p) (Patent.title p)
                  (Patent.abstract p) (Patent.prio_date p)
                  (Patent.family_id p) (Patent.cpc_codes p)
                  (Patent.assignees p) (Patent.inventors p) in
      modify (fun st =>
        mkStore (patents st ++ [saved]) (claims st) (clauses st)
                (passages st) (memberships st) (search_sessions st)
                (audit_log st) (console st)) ;;;
      ret saved
  end.

(** [auditLogRepository.save(row)]. *)
Definition auditLog_save (row : AuditLog.t) : M unit :=
  modify (fun st =>
    mkStore (patents st) (claims st) (clauses st) (passages st)
            (memberships st) (search_sessions st) (audit_log st ++ [row])
            (console st)).

(** [searchSessionRepository.save(row)]. *)
Definition searchSession_save (row : SearchSession.t) : M unit :=
  modify (fun st =>
    mkStore (patents st) (claims st) (clauses st) (passages st)
            (memberships st) (search_sessions st ++ [row]) (audit_log st)
            (console st)).

(** *** The publishing stubs: each one only logs a line. *)

Definition publishIngestEvent (patent_id file_url : string)
           (file_type : FileType) : M unit :=
  console_log ("Publishing ingest event for patent " ++ patent_id).

Definition publishSearchEvent (search_id query workspace_id : string)
           (filters : option SearchFilters.t) (k : Z)
           (search_type : SearchType) : M unit :=
  console_log ("Publishing search event " ++ search_id
               ++ " for query: " ++ query).

Definition publishAlignmentEvent (env : Env)
           (comparison_id patent_id : string)
           (claim_num : Js.number) (refs : list string) : M unit :=
  console_log ("Publishing alignment event " ++ comparison_id
               ++ " for patent " ++ patent_id
               ++ ", claim " ++ number_to_string env claim_num).

Definition publishNoveltyEvent (env : Env) (novelty_id patent_id : string)
           (claim_num : Js.number) : M unit :=
  console_log ("Publishing novelty event " ++ novelty_id
               ++ " for patent " ++ patent_id
               ++ ", claim " ++ number_to_string env claim_num).

Definition publishChartEvent (env : Env) (chart_id patent_id : string)
           (claim_num : Js.number) (chart_type : ChartType)
           (include_alignments include_novelty : option bool) : M unit :=
  console_log ("Publishing chart event " ++ chart_id
               ++ " for patent " ++ patent_id
               ++ ", claim " ++ number_to_string env claim_num
               ++ ", type " ++ ChartType_to_string chart_type).

Definition publishExportEvent (export_id : string) (patent_ids : list string)
           (export_type : ExportType)
           (include_charts include_alignments include_novelty : option bool)
  : M unit :=
  console_log ("Publishing export event " ++ export_id
               ++ " for " ++ Js.nat_to_string (length patent_ids)
               ++ " patents, type " ++ ExportType_to_string export_type).

(** *** The mock computations *)

(** [getMockAlignments]: one alignment per element of [refs], in order. *)
Definition getMockAlignments (patent_id : string) (claim_num : Js.number)
           (refs : list string) : list AlignmentItem.t :=
  Js.mapi (fun ref_id index =>
    AlignmentItem.mk
      index
      ("Mock clause " ++ Js.nat_to_string (index + 1)
                      ++ " for patent " ++ patent_id)
      ref_id
      ("Mock reference clause " ++ Js.nat_to_string (index + 1))
      (0.8 - Js.of_index index * 0.1)%float
      (if Nat.eqb index 0 then "high_similarity" else "medium_similarity"))
    refs.

(** [getMockNovelty]: a constant object. *)
Definition getMockNovelty (patent_id : string) (claim_num : Js.number)
  : MockNovelty.t :=
  MockNovelty.mk 0.75%float 0.25%float "high"
    [ ClauseDetail.mk 0 "Mock clause 1" 0.8%float "high";
      ClauseDetail.mk 1 "Mock clause 2" 0.7%float "medium" ].

(** [getMockChart]: the [file_url] of the returned object. *)
Definition getMockChart (env : Env) (patent_id : string)
           (claim_num : Js.number) (chart_type : ChartType) : string :=
  "https://storage.example.com/charts/mock_chart_" ++ patent_id ++ "_"
    ++ number_to_string env claim_num ++ "."
    ++ ChartType_to_string chart_type.

(** [getMockExport]: the [file_url] of the returned object. *)
Definition getMockExport (patent_ids : list string)
           (export_type : ExportType) : string :=
  "https://storage.example.com/exports/mock_export_"
    ++ Js.join "_" patent_ids ++ "." ++ ExportType_to_string export_type.

(** *** Handlers that need no paging query *)

(** [POST patents/ingest] *)
Definition ingestPatent (env : Env) (ingestRequest : PatentIngestRequest.t)
           (req : Request) : M IngestResponse.t :=
  try_catch
    (let file_url := PatentIngestRequest.file_url ingestRequest in
     let file_type := PatentIngestRequest.file_type ingestRequest in
     let workspace_id := PatentIngestRequest.workspace_id ingestRequest in
     let metadata := PatentIngestRequest.metadata ingestRequest in
     let field {A} (f : Metadata.t -> option A) : option A :=
       match metadata with Some m => f m | None => None end in
     user_id <- req_user_id req ;;
     if negb (hasWorkspaceAccess user_id workspace_id) then
       throw (mkHttpException "Access denied to workspace" FORBIDDEN)
     else
       let patent :=
         Patent.mk ""
           workspace_id
           None
           (Js.or_default (field Metadata.title) "Untitled Patent")
           (Js.or_default (field Metadata.abstract) "")
           (Some (match field Metadata.prio_date with
                  | Some d => if (d =? 0)%Z then now env else d
                  | None => now env
                  end))
           (field Metadata.family_id)
           (match field Metadata.cpc_codes with Some l => l | None => [] end)
           (match field Metadata.assignees with Some l => l | None => [] end)
           (match field Metadata.inventors with Some l => l | None => [] end)
       in
       savedPatent <- patent_save env patent ;;
       publishIngestEvent (Patent.id savedPatent) file_url file_type ;;;
       auditLog_save
         (AuditLog.mk workspace_id user_id "patent_ingest" "patent"
                      (Some (Patent.id savedPatent))
                      (IngestDetails file_url file_type metadata)) ;;;
       ret (IngestResponse.mk (Patent.id savedPatent) "processing"))
    (fun error =>
       throw (mkHttpException
                ("Failed to ingest patent: " ++ message error)
                INTERNAL_SERVER_ERROR)).

(** [POST patents/compare] *)
Definition comparePatent (env : Env) (compareRequest : CompareRequest.t)
           (req : Request) : M ComparisonResponse.t :=
  try_catch
    (let patent_id := CompareRequest.patent_id compareRequest in
     let claim_num := CompareRequest.claim_num compareRequest in
     let refs := CompareRequest.refs compareRequest in
     let workspace_id := CompareRequest.workspace_id compareRequest in
     user_id <- req_user_id req ;;
     if negb (hasWorkspaceAccess user_id workspace_id) then
       throw (mkHttpException "Access denied to workspace" FORBIDDEN)
     else
       patent <- patent_findOne patent_id workspace_id ;;
       match patent with
       | None =>
           throw (mkHttpException "Patent not found or access denied"
                                  NOT_FOUND)
       | Some _ =>
           let comparison_id := generateComparisonId env in
           publishAlignmentEvent env comparison_id patent_id claim_num
                                 refs ;;;
           let mockAlignments := getMockAlignments patent_id claim_num refs in
           auditLog_save
             (AuditLog.mk workspace_id user_id "patent_compare" "comparison"
                          None
                          (CompareDetails patent_id claim_num refs
                                          comparison_id)) ;;;
           ret (ComparisonResponse.mk comparison_id patent_id claim_num
                                      mockAlignments "completed")
       end)
    (fun error =>
       throw (mkHttpException
                ("Failed to compare patent: " ++ message error)
                INTERNAL_SERVER_ERROR)).

(** [POST patents/novelty] *)
Definition calculateNovelty (env : Env) (noveltyRequest : NoveltyRequest.t)
           (req : Request) : M NoveltyResponse.t :=
  try_catch
    (let patent_id := NoveltyRequest.patent_id noveltyRequest in
     let claim_num := NoveltyRequest.claim_num noveltyRequest in
     let workspace_id := NoveltyRequest.workspace_id noveltyRequest in
     user_id <- req_user_id req ;;
     if negb (hasWorkspaceAccess user_id workspace_id) then
       throw (mkHttpException "Access denied to workspace" FORBIDDEN)
     else
       patent <- patent_findOne patent_id workspace_id ;;
       match patent with
       | None =>
           throw (mkHttpException "Patent not found or access denied"
                                  NOT_FOUND)
       | Some _ =>
           let novelty_id := generateNoveltyId env in
           publishNoveltyEvent env novelty_id patent_id claim_num ;;;
           let mockNovelty := getMockNovelty patent_id claim_num in
           auditLog_save
             (AuditLog.mk workspace_id user_id "patent_novelty" "novelty"
                          None
                          (NoveltyDetails patent_id claim_num novelty_id)) ;;;
           ret (NoveltyResponse.mk novelty_id patent_id claim_num
                  (MockNovelty.novelty_score mockNovelty)
                  (MockNovelty.obviousness_score mockNovelty)
                  (MockNovelty.confidence_band mockNovelty)
                  (MockNovelty.clause_details mockNovelty)
                  "completed")
       end)
    (fun error =>
       throw (mkHttpException
                ("Failed to calculate novelty: " ++ message error)
                INTERNAL_SERVER_ERROR)).

(** [POST patents/charts/claim] *)
Definition generateClaimChart (env : Env) (chartRequest : ChartRequest.t)
           (req : Request) : M ChartResponse.t :=
  try_catch
    (let patent_id := ChartRequest.patent_id chartRequest in
     let claim_num := ChartRequest.claim_num chartRequest in
     let chart_type := ChartRequest.chart_type chartRequest in
     let include_alignments := ChartRequest.include_alignments chartRequest in
     let include_novelty := ChartRequest.include_novelty chartRequest in
     let workspace_id := ChartRequest.workspace_id chartRequest in
     user_id <- req_user_id req ;;
     if negb (hasWorkspaceAccess user_id workspace_id) then
       throw (mkHttpException "Access denied to workspace" FORBIDDEN)
     else
       patent <- patent_findOne patent_id workspace_id ;;
       match patent with
       | None =>
           throw (mkHttpException "Patent not found or access denied"
                                  NOT_FOUND)
       | Some _ =>
           let chart_id := generateChartId env in
           publishChartEvent env chart_id patent_id claim_num chart_type
                             include_alignments include_novelty ;;;
           let mockChart_file_url :=
             getMockChart env patent_id claim_num chart_type in
           auditLog_save
             (AuditLog.mk workspace_id user_id "chart_generate" "chart"
                          None
                          (ChartDetails patent_id claim_num chart_type
                                        chart_id)) ;;;
           ret (ChartResponse.mk chart_id patent_id claim_num chart_type
                                 mockChart_file_url "completed")
       end)
    (fun error =>
       throw (mkHttpException
                ("Failed to generate chart: " ++ message error)
                INTERNAL_SERVER_ERROR)).

(** The [for (const patent_id of patent_ids)] loop of the export handler:
    it stops at the first identifier with no patent in the workspace. *)
Fixpoint validate_patents (workspace_id : string) (patent_ids : list string)
  : M unit :=
  match patent_ids with
  | [] => ret tt
  | patent_id :: rest =>
      patent <- patent_findOne patent_id workspace_id ;;
      match patent with
      | None =>
          throw (mkHttpException
                   ("Patent " ++ patent_id ++ " not found or access denied")
                   NOT_FOUND)
      | Some _ => validate_patents workspace_id rest
      end
  end.

(** [POST patents/exports/bundle] *)
Definition createExportBundle (env : Env) (exportRequest : ExportRequest.t)
           (req : Request) : M ExportResponse.t :=
  try_catch
    (let patent_ids := ExportRequest.patent_ids exportRequest in
     let export_type := ExportRequest.export_type exportRequest in
     let include_charts := ExportRequest.include_charts exportRequest in
     let include_alignments :=
       ExportRequest.include_alignments exportRequest in
     let include_novelty := ExportRequest.include_novelty exportRequest in
     let workspace_id := ExportRequest.workspace_id exportRequest in
     user_id <- req_user_id req ;;
     if negb (hasWorkspaceAccess user_id workspace_id) then
       throw (mkHttpException "Access denied to workspace" FORBIDDEN)
     else
       validate_patents workspace_id patent_ids ;;;
       let export_id := generateExportId env in
       publishExportEvent export_id patent_ids export_type include_charts
                          include_alignments include_novelty ;;;
       let mockExport_file_url := getMockExport patent_ids export_type in
       auditLog_save
         (AuditLog.mk workspace_id user_id "export_bundle" "export" None
                      (ExportDetails patent_ids export_type export_id)) ;;;
       ret (ExportResponse.mk export_id patent_ids export_type
                              mockExport_file_url "completed"))
    (fun error =>
       throw (mkHttpException
                ("Failed to create export bundle: " ++ message error)
                INTERNAL_SERVER_ERROR)).

(** *** Handlers over paging queries *)

Section Queries.

(** [createQueryBuilder('patent').where(workspace_id)[.andWhere(ILIKE
    search)].orderBy(created_at DESC).skip(offset).take(limit)
    .getManyAndCount()] over the rows of [patents]. *)
Variable patent_getManyAndCount :
  list Patent.t -> string -> option string -> Z -> Z -> list Patent.t * Z.

(** [patentRepository.find({ where: { workspace_id }, take: k })]. *)
Variable patent_find_take : list Patent.t -> string -> Z -> list Patent.t.


(** [getMockSearchResults] *)
Definition getMockSearchResults (query workspace_id : string) (k : Z)
  : M (list SearchResult.t) :=
  rows <- gets patents ;;
  let patents := patent_find_take rows workspace_id k in
  ret (Js.mapi (fun patent index =>
         SearchResult.mk (Patent.id patent)
                         (1.0 - Js.of_index index * 0.1)%float
                         "hybrid"
                         (Patent.title patent)
                         (Patent.abstract patent)
                         (Patent.prio_date patent))
       patents).

(** [POST patents/search] *)
Definition searchPatents (env : Env) (searchRequest : SearchRequest.t)
           (req : Request) : M SearchResponse.t :=
  try_catch
    (let query := SearchRequest.query searchRequest in
     let filters := SearchRequest.filters searchRequest in
     let k := match SearchRequest.k searchRequest with
              | Some k => k | None => 10%Z end in
     let search_type := match SearchRequest.search_type searchRequest with
                        | Some t => t | None => hybrid end in
     user_id <- req_user_id req ;;
     match Js.or_else (header_x_workspace_id req) None with
     | None =>
         throw (mkHttpException "Workspace ID required" BAD_REQUEST)
     | Some workspace_id =>
         if negb (hasWorkspaceAccess user_id workspace_id) then
           throw (mkHttpException "Access denied to workspace" FORBIDDEN)
         else
           let search_id := generateSearchId env in
           publishSearchEvent search_id query workspace_id filters k
                              search_type ;;;
           mockResults <- getMockSearchResults query workspace_id k ;;
           searchSession_save
             (SearchSession.mk workspace_id user_id query
                (match filters with
                 | Some f => f | None => SearchFilters.empty end)
                mockResults) ;;;
           auditLog_save
             (AuditLog.mk workspace_id user_id "patent_search" "search"
                          None
                          (SearchDetails query filters k search_type
                                         search_id)) ;;;
           ret (SearchResponse.mk mockResults (length mockResults)
                                  search_id)
     end)
    (fun error =>
       throw (mkHttpException
                ("Failed to search patents: " ++ message error)
                INTERNAL_SERVER_ERROR)).

End Queries.

(** *** Reading one patent *)

(** [error instanceof HttpException]: a runtime [TypeError] is not one. *)
Definition instanceof_HttpException (error : HttpException) : bool :=
  negb (Nat.eqb (status error) 0).

(** [patentRepository.findOne({ where: { id: patent_id } })]. *)
Definition patent_findOne_by_id (patent_id : string) : M (option Patent.t) :=
  gets (fun st => find (fun p => Patent.id p =? patent_id) (patents st)).

(** [GET patents/:id]: the [catch] block rethrows an [HttpException] as it
    is and wraps anything else. *)
Definition getPatent (patent_id : string) (req : Request) : M Patent.t :=
  try_catch
    (user_id <- req_user_id req ;;
     patent <- patent_findOne_by_id patent_id ;;
     match patent with
     | None => throw (mkHttpException "Patent not found" NOT_FOUND)
     | Some patent =>
         if negb (hasWorkspaceAccess user_id (Patent.workspace_id patent)) then
           throw (mkHttpException "Access denied to patent" FORBIDDEN)
         else ret patent
     end)
    (fun error =>
       if instanceof_HttpException error then throw error
       else throw (mkHttpException
                     ("Failed to get patent: " ++ message error)
                     INTERNAL_SERVER_ERROR)).

Section Finders.

(** [claimRepository.find({ where: { patent_id },
    order: { claim_number: 'ASC' } })] over the rows of [claims]. *)
Variable claim_find_ordered : list Claim.t -> string -> list Claim.t.

(** [GET patents/:id/claims] *)
Definition getPatentClaims (patent_id : string) (req : Request)
  : M (list Claim.t) :=
  try_catch
    (user_id <- req_user_id req ;;
     patent <- patent_findOne_by_id patent_id ;;
     match patent with
     | None => throw (mkHttpException "Patent not found" NOT_FOUND)
     | Some patent =>
         if negb (hasWorkspaceAccess user_id (Patent.workspace_id patent)) then
           throw (mkHttpException "Access denied to patent" FORBIDDEN)
         else
           rows <- gets claims ;;
           ret (claim_find_ordered rows patent_id)
     end)
    (fun error =>
       if instanceof_HttpException error then throw error
       else throw (mkHttpException
                     ("Failed to get patent claims: " ++ message error)
                     INTERNAL_SERVER_ERROR)).

End Finders.

End PatentController.

(* ------------------------------------------------------------------ *)
(** ** The guarded routes

    [@UseGuards(JwtAuthGuard, WorkspaceGuard)] on the controller class: a
    request reaches a handler only after [WorkspaceGuard.canActivate]
    returned [true].  The request modelled here is the one that leaves
    [JwtAuthGuard], which fills [request.user]. *)

Module Routes.

Definition guarded {A : Type} (request : Request)
           (body_workspace_id : option string) (handler : M A) : M A :=
  allowed <- WorkspaceGuard.canActivate request body_workspace_id ;;
  if allowed : bool then handler
  else throw (ForbiddenException "Forbidden resource").

Definition post_compare (env : Env) (body : CompareRequest.t)
           (request : Request) : M ComparisonResponse.t :=
  guarded request (Some (CompareRequest.workspace_id body))
          (PatentController.comparePatent env body request).






(** [POST patents/search]: the search body has no [workspace_id]. *)
Definition post_search
           (find_take : list Patent.t -> string -> Z -> list Patent.t)
           (env : Env) (body : SearchRequest.t) (request : Request)
  : M SearchResponse.t :=
  guarded request None
          (PatentController.searchPatents find_take env body request).

(** [GET patents/:id] and [GET patents/:id/claims]: no body. *)
Definition get_patent (patent_id : string) (request : Request)
  : M Patent.t :=
  guarded request None (PatentController.getPatent patent_id request).

Definition get_patent_claims
           (find_ordered : list Claim.t -> string -> list Claim.t)
           (patent_id : string) (request : Request) : M (list Claim.t) :=
  guarded request None
          (PatentController.getPatentClaims find_ordered patent_id request).

End Routes.

(* ------------------------------------------------------------------ *)
(** ** Sample data *)

Module Samples.

Definition alice : User.t := User.mk "user-alice".

Definition request_alice : Request :=
  mkRequest (Some alice) (Some "ws-1") None.

(** 2020-01-01 and 2023-06-01, in milliseconds since the epoch. *)
Definition date_2020 : Date := 1577836800000%Z.
Definition date_2023 : Date := 1685577600000%Z.

Definition target_patent : Patent.t :=
  Patent.mk "pat-target" "ws-1" (Some "US-1000001-B2")
            "Data processing method" "A method."
            (Some date_2020) None [] [] [].

(** A reference with a priority date (hence a publication date) after
    the priority date of the target. *)
Definition late_reference : Patent.t :=
  Patent.mk "pat-late" "ws-1" (Some "US-2000002-B2")
            "Later method" "A later method."
            (Some date_2023) None [] [] [].

(** Publication dates of the references, as supplied with them. *)
Definition publication_dates : list (string * Date) :=
  [("pat-late", date_2023)].

Definition claim_1 : Claim.t :=
  Claim.mk "claim-1" "pat-target" 1 true
           "A method comprising receiving, analyzing and storing data.".

Definition clause_0 : Clause.t :=
  Clause.mk "clause-0" "claim-1" 0 (Some "preamble") "A method comprising".
Definition clause_1 : Clause.t :=
  Clause.mk "clause-1" "claim-1" 1 (Some "element") "receiving data".
Definition clause_2 : Clause.t :=
  Clause.mk "clause-2" "claim-1" 2 (Some "element") "storing the data".

Definition membership_alice : Membership.t :=
  Membership.mk "user-alice" "ws-1" "member".

(** A workspace with the target patent only: no reference, no passage. *)
Definition store_alone : Store :=
  mkStore [target_patent] [claim_1] [clause_0; clause_1] []
          [membership_alice] [] [] [].

(** The same workspace with the later reference and a third clause. *)
Definition store_full : Store :=
  mkStore [target_patent; late_reference] [claim_1]
          [clause_0; clause_1; clause_2]
          [Passage.mk "passage-1" "pat-late" 0 "receiving a data stream"]
          [membership_alice] [] [] [].

(** A stand-in for the printer of the runtime, meant for the integers of
    the samples: it gives the decimal digits of an integer. *)
Definition print_integer (x : Js.number) : string :=
  match Js.integer_value x with
  | Some z => Js.int_to_string z
  | None => "NaN"
  end.

Definition env_a : Env :=
  mkEnv 1700000000000 "0.4fzyo82mvyr" "uuid-a" print_integer.
Definition env_b : Env :=
  mkEnv 1700000000001 "0.9k1x2c3v4b5n" "uuid-b" print_integer.

Definition compare_one : CompareRequest.t :=
  CompareRequest.mk "pat-target" 1 ["pat-late"] "ws-1".

Definition compare_two : CompareRequest.t :=
  CompareRequest.mk "pat-target" 1 ["pat-late"; "pat-other"] "ws-1".

Definition ten_refs : list string :=
  ["r0"; "r1"; "r2"; "r3"; "r4"; "r5"; "r6"; "r7"; "r8"; "r9"].

Definition compare_ten : CompareRequest.t :=
  CompareRequest.mk "pat-target" 1 ten_refs "ws-1".

Definition nine_refs : list string :=
  ["r0"; "r1"; "r2"; "r3"; "r4"; "r5"; "r6"; "r7"; "r8"].

Definition compare_nine : CompareRequest.t :=
  CompareRequest.mk "pat-target" 1 nine_refs "ws-1".

Definition novelty_1 : NoveltyRequest.t :=
  NoveltyRequest.mk "pat-target" 1 "ws-1".

End Samples.

(* ------------------------------------------------------------------ *)
(** ** Vocabulary of the specification *)

Import PatentController.

(** The four labels of the alignment classifier. *)
Definition spec_alignment_labels : list string :=
  ["overlap"; "paraphrase"; "gap"; "ambiguous"].

Definition label_in_spec (label : string) : bool :=
  existsb (String.eqb label) spec_alignment_labels.

(** The publication date recorded for a reference document. *)
Definition publication_date_of (dates : list (string * Date))
           (document : string) : option Date :=
  match find (fun entry => fst entry =? document) dates with
  | Some entry => Some (snd entry)
  | None => None
  end.

(** The alignment points into a document published after [priority]. *)
Definition published_after (dates : list (string * Date)) (priority : Date)
           (a : AlignmentItem.t) : bool :=
  match publication_date_of dates (AlignmentItem.reference_patent_id a) with
  | Some published => (priority <? published)%Z
  | None => false
  end.

(** The per-clause entry of a clause without evidence: novelty 1, low
    confidence. *)
Definition full_novelty_low_confidence (d : ClauseDetail.t) : bool :=
  (PrimFloat.eqb (ClauseDetail.novelty_score d) 1
   && (ClauseDetail.confidence d =? "low"))%bool.

(** The greatest similarity among the alignments of a clause. *)
Definition max_similarity (clause_index : nat)
           (alignments : list AlignmentItem.t) : option Js.number :=
  fold_left
    (fun best a =>
       if Nat.eqb (AlignmentItem.clause_index a) clause_index then
         match best with
         | None => Some (AlignmentItem.similarity_score a)
         | Some m =>
             Some (if PrimFloat.ltb m (AlignmentItem.similarity_score a)
                   then AlignmentItem.similarity_score a else m)
         end
       else best)
    alignments None.

(** A number clipped to [0,1]. *)
Definition clip_unit (x : Js.number) : Js.number :=
  if PrimFloat.ltb x 0 then 0%float
  else if PrimFloat.ltb 1 x then 1%float else x.

(** The per-clause novelty in the words of the specification: 1 minus
    the maximum combined similarity across the alignments of the clause,
    clipped to [0,1]; 1 when the clause has no alignment. *)
Definition spec_clause_novelty (clause_index : nat)
           (alignments : list AlignmentItem.t) : Js.number :=
  match max_similarity clause_index alignments with
  | Some m => clip_unit (1 - m)%float
  | None => 1%float
  end.

(** The store with another [passages] table. *)
Definition with_passages (rows : list Passage.t) (st : Store) : Store :=
  mkStore (patents st) (claims st) (clauses st) rows (memberships st)
          (search_sessions st) (audit_log st) (console st).

(** The store with other [claims] and [clauses] tables. *)
Definition with_claims (cs : list Claim.t) (cls : list Clause.t)
           (st : Store) : Store :=
  mkStore (patents st) cs cls (passages st) (memberships st)
          (search_sessions st) (audit_log st) (console st).

(** The claim [claim_num] of a patent, and its clauses. *)
Definition claim_of (st : Store) (patent_id : string) (claim_num : Z)
  : option Claim.t :=
  find (fun c => (Claim.patent_id c =? patent_id)
                 && (Claim.claim_number c =? claim_num)%Z)%bool
       (claims st).

Definition clauses_of (st : Store) (patent_id : string) (claim_num : Z)
  : list Clause.t :=
  match claim_of st patent_id claim_num with
  | Some c => filter (fun cl => Clause.claim_id cl =? Claim.id c) (clauses st)
  | None => []
  end.

(** The per-clause detail of a response has an entry for the clause. *)
Definition detail_covers (resp : NoveltyResponse.t) (cl : Clause.t) : bool :=
  existsb (fun d => (Z.of_nat (ClauseDetail.clause_index d)
                     =? Clause.clause_index cl)%Z)
          (NoveltyResponse.clause_details resp).

(** A response with its generated identifier replaced. *)
Definition with_comparison_id (id : string) (r : ComparisonResponse.t)
  : ComparisonResponse.t :=
  ComparisonResponse.mk id (ComparisonResponse.patent_id r)
                        (ComparisonResponse.claim_num r)
                        (ComparisonResponse.alignments r)
                        (ComparisonResponse.status r).

Definition with_novelty_id (id : string) (r : NoveltyResponse.t)
  : NoveltyResponse.t :=
  NoveltyResponse.mk id (NoveltyResponse.patent_id r)
                     (NoveltyResponse.claim_num r)
                     (NoveltyResponse.novelty_score r)
                     (NoveltyResponse.obviousness_score r)
                     (NoveltyResponse.confidence_band r)
                     (NoveltyResponse.clause_details r)
                     (NoveltyResponse.status r).

(** Two outcomes that differ at most in the generated identifier. *)
Definition same_comparison_up_to_id (a b : Result ComparisonResponse.t)
  : Prop :=
  match a, b with
  | inr r1, inr r2 =>
      r1 = with_comparison_id (ComparisonResponse.comparison_id r1) r2
  | inl e1, inl e2 => e1 = e2
  | _, _ => False
  end.

Definition same_novelty_up_to_id (a b : Result NoveltyResponse.t) : Prop :=
  match a, b with
  | inr r1, inr r2 => r1 = with_novelty_id (NoveltyResponse.novelty_id r1) r2
  | inl e1, inl e2 => e1 = e2
  | _, _ => False
  end.

(** The message a handler would answer with if its own access check ever
    failed: the [catch] block prefixes the message of what was thrown. *)
Definition access_denied : string := "Access denied to workspace".


(** The workspace identifier the guard looks up: the first of header,
    body and query that is set and not empty. *)
Definition guard_workspace_id (request : Request)
           (body_workspace_id : option string) : option string :=
  Js.or_else
    (Js.or_else (Js.or_else (header_x_workspace_id request) body_workspace_id)
                (query_workspace_id request))
    None.

(** The guard finds no membership row for the user in the workspace. *)
Definition not_a_member (request : Request)
           (body_workspace_id : option string) (st : Store) : Prop :=
  exists u ws,
    user request = Some u
    /\ guard_workspace_id request body_workspace_id = Some ws
    /\ find (fun m => (Membership.user_id m =? User.id u)
                      && (Membership.workspace_id m =? ws))%bool
            (memberships st) = None.

(* ------------------------------------------------------------------ *)
(** ** The API client of the frontend *)

Module ApiClient.

(** The two keys of [localStorage] the client reads; [getItem] of a key
    that is not set is [null]. *)
Record LocalStorage : Type := mkLocalStorage {
  auth_token : option string;
  workspace_id : option string
}.

(** The headers set by the request interceptor. *)
Record Headers : Type := mkHeaders {
  Authorization : option string;
  x_workspace_id : option string
}.

(** [api.interceptors.request.use(config => ...)] *)
Definition request_interceptor (storage : LocalStorage) : Headers :=
  mkHeaders
    (match auth_token storage with
     | Some token => if Js.truthy token then Some ("Bearer " ++ token)
                     else None
     | None => None
     end)
    (match workspace_id storage with
     | Some workspaceId => if Js.truthy workspaceId then Some workspaceId
                           else None
     | None => None
     end).

(** The request of a [POST] of the client as it reaches the workspace
    guard: [user] is what the JWT guard made of the token, the query
    string is empty. *)
Definition post_request (storage : LocalStorage) (user : option User.t)
  : Request :=
  mkRequest user (x_workspace_id (request_interceptor storage)) None.

End ApiClient.

(* ------------------------------------------------------------------ *)
(** ** Frontend components *)

Module AlignmentTable.

(** An icon: the component and its [className]. *)
Definition getAlignmentIcon (type : string) : string * string :=
  if type =? "exact_match" then ("CheckCircle", "h-4 w-4 text-green-500")
  else if type =? "high_similarity" then
    ("CheckCircle", "h-4 w-4 text-yellow-500")
  else if type =? "medium_similarity" then
    ("AlertTriangle", "h-4 w-4 text-orange-500")
  else if type =? "low_similarity" then ("XCircle", "h-4 w-4 text-red-500")
  else ("AlertTriangle", "h-4 w-4 text-gray-500").

Definition getAlignmentColor (type : string) : string :=
  if type =? "exact_match" then "text-green-600 bg-green-50"
  else if type =? "high_similarity" then "text-yellow-600 bg-yellow-50"
  else if type =? "medium_similarity" then "text-orange-600 bg-orange-50"
  else if type =? "low_similarity" then "text-red-600 bg-red-50"
  else "text-gray-600 bg-gray-50".

End AlignmentTable.

Module NoveltyCard.

Definition getNoveltyColor (score : Js.number) : string :=
  if PrimFloat.leb 0.8 score then "text-green-600"
  else if PrimFloat.leb 0.6 score then "text-yellow-600"
  else if PrimFloat.leb 0.4 score then "text-orange-600"
  else "text-red-600".

Definition getNoveltyIcon (score : Js.number) : string * string :=
  if PrimFloat.leb 0.7 score then ("TrendingUp", "h-4 w-4 text-green-500")
  else if PrimFloat.leb 0.4 score then
    ("AlertCircle", "h-4 w-4 text-yellow-500")
  else ("TrendingDown", "h-4 w-4 text-red-500").

Definition getConfidenceColor (confidence : string) : string :=
  if confidence =? "high" then "text-green-600 bg-green-50"
  else if confidence =? "medium" then "text-yellow-600 bg-yellow-50"
  else if confidence =? "low" then "text-red-600 bg-red-50"
  else "text-gray-600 bg-gray-50".

End NoveltyCard.

Module ClaimViewer.

(** A [Set<number>] of claim numbers: its elements in insertion order,
    each one once. *)
Definition NumberSet := list Z.

Definition has (s : NumberSet) (n : Z) : bool := existsb (Z.eqb n) s.

Definition delete (s : NumberSet) (n : Z) : NumberSet :=
  filter (fun m => negb (Z.eqb n m)) s.

Definition add (s : NumberSet) (n : Z) : NumberSet :=
  if has s n then s else (s ++ [n])%list.

(** [toggleClaim]: the new value of [expandedClaims]. *)
Definition toggleClaim (expandedClaims : NumberSet) (claimNumber : Z)
  : NumberSet :=
  let newExpanded := expandedClaims in
  if has newExpanded claimNumber then delete newExpanded claimNumber
  else add newExpanded claimNumber.

End ClaimViewer.

(* ------------------------------------------------------------------ *)
(** ** Database configuration *)

Module DatabaseConfig.

(** [process.env]: a variable that is not set is [undefined]. *)
Definition ProcessEnv := string -> option string.

(** [process.env.NODE_ENV === value] *)
Definition node_env_is (env : ProcessEnv) (value : string) : bool :=
  match env "NODE_ENV" with
  | Some v => v =? value
  | None => false
  end.

Definition synchronize (env : ProcessEnv) : bool :=
  node_env_is env "development".

Definition logging (env : ProcessEnv) : bool :=
  node_env_is env "development".

(** [ssl]: [Some rejectUnauthorized] for the object, [None] for [false]. *)
Definition ssl (env : ProcessEnv) : option bool :=
  if node_env_is env "production" then Some false else None.

End DatabaseConfig.

(* ------------------------------------------------------------------ *)
(** ** More sample data and vocabulary *)

Module MoreSamples.

(** A patent of a second workspace, of which alice is no member. *)
Definition foreign_patent : Patent.t :=
  Patent.mk "pat-foreign" "ws-2" (Some "EP-3000003-A1")
            "Foreign method" "Another method."
            (Some Samples.date_2020) None [] [] [].

Definition foreign_claim : Claim.t :=
  Claim.mk "claim-f1" "pat-foreign" 1 true "A foreign method.".

Definition store_two_workspaces : Store :=
  mkStore [Samples.target_patent; foreign_patent]
          [Samples.claim_1; foreign_claim]
          [Samples.clause_0; Samples.clause_1] []
          [Samples.membership_alice] [] [] [].

(** The claims of a patent, as they are stored. *)
Definition claims_in_stored_order (rows : list Claim.t) (patent_id : string)
  : list Claim.t :=
  filter (fun c => Claim.patent_id c =? patent_id) rows.

(** The first [k] patents of a workspace. *)
Definition first_patents (rows : list Patent.t) (workspace_id : string)
           (k : Z) : list Patent.t :=
  firstn (Z.to_nat k)
         (filter (fun p => Patent.workspace_id p =? workspace_id) rows).

Definition compare_foreign : CompareRequest.t :=
  CompareRequest.mk "pat-foreign" 1 ["pat-target"] "ws-2".


Definition search_any : SearchRequest.t :=
  SearchRequest.mk "data processing" None None None.

End MoreSamples.

(** The store after a handler logged [line] and saved the audit [row]. *)
Definition audited (row : AuditLog.t) (line : string) (st : Store) : Store :=
  mkStore (patents st) (claims st) (clauses st) (passages st)
          (memberships st) (search_sessions st) (audit_log st ++ [row])
          (console st ++ [line]).

(** The store with one more row in [search_sessions]. *)
Definition with_new_session (row : SearchSession.t) (st : Store) : Store :=
  mkStore (patents st) (claims st) (clauses st) (passages st)
          (memberships st) (search_sessions st ++ [row]) (audit_log st)
          (console st).

(** Two stores with the same rows in every table; the console may
    differ. *)
Definition same_tables (st st' : Store) : Prop :=
  patents st' = patents st
  /\ claims st' = claims st
  /\ clauses st' = clauses st
  /\ passages st' = passages st
  /\ memberships st' = memberships st
  /\ search_sessions st' = search_sessions st
  /\ audit_log st' = audit_log st.


(** The five kinds of generated identifiers. *)
Definition id_kinds : list string :=
  ["search"; "compare"; "novelty"; "chart"; "export"].


(** The user has a membership row for the workspace. *)
Definition is_member (user_id workspace_id : string) (st : Store) : bool :=
  existsb (fun m => (Membership.user_id m =? user_id)
                    && (Membership.workspace_id m =? workspace_id))%bool
          (memberships st).

(** No character of the string is an underscore. *)
Fixpoint no_underscore (s : string) : bool :=
  match s with
  | EmptyString => true
  | String c rest => (negb (Ascii.eqb c "_") && no_underscore rest)%bool
  end.

(* ------------------------------------------------------------------ *)
(** ** Outcomes of the compare and novelty handlers *)

(** What [comparePatent] answers when it answers. *)
Definition comparison_of (env : Env) (cr : CompareRequest.t)
  : ComparisonResponse.t :=
  ComparisonResponse.mk
    (generateComparisonId env)
    (CompareRequest.patent_id cr)
    (CompareRequest.claim_num cr)
    (getMockAlignments (CompareRequest.patent_id cr)
                       (CompareRequest.claim_num cr)
                       (CompareRequest.refs cr))
    "completed".

(** What [calculateNovelty] answers when it answers. *)
Definition novelty_of (env : Env) (nr : NoveltyRequest.t)
  : NoveltyResponse.t :=
  NoveltyResponse.mk
    (generateNoveltyId env)
    (NoveltyRequest.patent_id nr)
    (NoveltyRequest.claim_num nr)
    0.75%float 0.25%float "high"
    [ ClauseDetail.mk 0 "Mock clause 1" 0.8%float "high";
      ClauseDetail.mk 1 "Mock clause 2" 0.7%float "medium" ]
    "completed".

Ltac step_handler :=
  unfold run, comparePatent, calculateNovelty, generateClaimChart,
    ingestPatent, createExportBundle, try_catch, bind, req_user_id,
    patent_findOne, gets, throw, ret.

Lemma comparePatent_found env cr req st u p :
  user req = Some u ->
  lookup_patent (CompareRequest.patent_id cr) (CompareRequest.workspace_id cr)
                (patents st) = Some p ->
  run (comparePatent env cr req) st = inr (comparison_of env cr).
Proof.
  intros Hu Hp. step_handler. rewrite Hu. cbn [negb hasWorkspaceAccess].
  rewrite Hp. reflexivity.
Qed.

Lemma comparePatent_missing env cr req st u :
  user req = Some u ->
  lookup_patent (CompareRequest.patent_id cr) (CompareRequest.workspace_id cr)
                (patents st) = None ->
  run (comparePatent env cr req) st
  = inl (mkHttpException
           "Failed to compare patent: Patent not found or access denied"
           INTERNAL_SERVER_ERROR).
Proof.
  intros Hu Hp. step_handler. rewrite Hu. cbn [negb hasWorkspaceAccess].
  rewrite Hp. reflexivity.
Qed.

Lemma comparePatent_no_user env cr req st :
  user req = None ->
  run (comparePatent env cr req) st
  = inl (mkHttpException
           "Failed to compare patent: Cannot read properties of undefined (reading 'id')"
           INTERNAL_SERVER_ERROR).
Proof. intros Hu. step_handler. rewrite Hu. reflexivity. Qed.

Lemma comparePatent_inv env cr req st resp :
  run (comparePatent env cr req) st = inr resp ->
  resp = comparison_of env cr.
Proof.
  destruct (user req) as [u|] eqn:Hu.
  - destruct (lookup_patent (CompareRequest.patent_id cr)
                            (CompareRequest.workspace_id cr) (patents st))
      as [p|] eqn:Hp.
    + rewrite (comparePatent_found env cr req st u p Hu Hp). congruence.
    + rewrite (comparePatent_missing env cr req st u Hu Hp). discriminate.
  - rewrite (comparePatent_no_user env cr req st Hu). discriminate.
Qed.

Lemma calculateNovelty_found env nr req st u p :
  user req = Some u ->
  lookup_patent (NoveltyRequest.patent_id nr) (NoveltyRequest.workspace_id nr)
                (patents st) = Some p ->
  run (calculateNovelty env nr req) st = inr (novelty_of env nr).
Proof.
  intros Hu Hp. step_handler. rewrite Hu. cbn [negb hasWorkspaceAccess].
  rewrite Hp. reflexivity.
Qed.

Lemma calculateNovelty_missing env nr req st u :
  user req = Some u ->
  lookup_patent (NoveltyRequest.patent_id nr) (NoveltyRequest.workspace_id nr)
                (patents st) = None ->
  run (calculateNovelty env nr req) st
  = inl (mkHttpException
           "Failed to calculate novelty: Patent not found or access denied"
           INTERNAL_SERVER_ERROR).
Proof.
  intros Hu Hp. step_handler. rewrite Hu. cbn [negb hasWorkspaceAccess].
  rewrite Hp. reflexivity.
Qed.

Lemma calculateNovelty_no_user env nr req st :
  user req = None ->
  run (calculateNovelty env nr req) st
  = inl (mkHttpException
           "Failed to calculate novelty: Cannot read properties of undefined (reading 'id')"
           INTERNAL_SERVER_ERROR).
Proof. intros Hu. step_handler. rewrite Hu. reflexivity. Qed.

Lemma calculateNovelty_inv env nr req st resp :
  run (calculateNovelty env nr req) st = inr resp ->
  resp = novelty_of env nr.
Proof.
  destruct (user req) as [u|] eqn:Hu.
  - destruct (lookup_patent (NoveltyRequest.patent_id nr)
                            (NoveltyRequest.workspace_id nr) (patents st))
      as [p|] eqn:Hp.
    + rewrite (calculateNovelty_found env nr req st u p Hu Hp). congruence.
    + rewrite (calculateNovelty_missing env nr req st u Hu Hp). discriminate.
  - rewrite (calculateNovelty_no_user env nr req st Hu). discriminate.
Qed.

(** *** The mapping with positions *)

Lemma mapi_from_length {A B : Type} (f : A -> nat -> B) (xs : list A) :
  forall start, length (Js.mapi_from start f xs) = length xs.
Proof.
  induction xs as [|x rest IH]; intros start; simpl; [reflexivity|].
  now rewrite IH.
Qed.

Lemma mapi_from_Forall {A B : Type} (P : B -> Prop) (f : A -> nat -> B)
      (xs : list A) :
  forall start,
    (forall x i, start <= i < start + length xs -> P (f x i)) ->
    Forall P (Js.mapi_from start f xs).
Proof.
  induction xs as [|x rest IH]; intros start H; simpl; constructor.
  - apply H. simpl. lia.
  - apply IH. intros y i Hi. apply H. simpl. lia.
Qed.

Lemma mapi_from_map {A B C : Type} (g : B -> C) (f : A -> nat -> B)
      (xs : list A) :
  forall start,
    map g (Js.mapi_from start f xs)
    = Js.mapi_from start (fun x i => g (f x i)) xs.
Proof.
  induction xs as [|x rest IH]; intros start; simpl; [reflexivity|].
  now rewrite IH.
Qed.

Lemma mapi_from_fst {A : Type} (xs : list A) :
  forall start, Js.mapi_from start (fun x _ => x) xs = xs.
Proof.
  induction xs as [|x rest IH]; intros start; simpl; [reflexivity|].
  now rewrite IH.
Qed.

(** The references named by the mock alignments are the supplied ones. *)
Lemma getMockAlignments_references patent_id claim_num refs :
  map AlignmentItem.reference_patent_id
      (getMockAlignments patent_id claim_num refs) = refs.
Proof.
  unfold getMockAlignments, Js.mapi. rewrite mapi_from_map. simpl.
  apply mapi_from_fst.
Qed.

(** The mock score at the first nine positions. *)
Lemma mock_score_in_unit_interval (index : nat) :
  index < 9 ->
  Js.in_unit_interval (0.8 - Js.of_index index * 0.1)%float = true.
Proof.
  intros H.
  do 9 (destruct index as [|index]; [vm_compute; reflexivity|]).
  lia.
Qed.

(** Every outcome of the two handlers at once. *)
Lemma comparePatent_run env cr req st :
  run (comparePatent env cr req) st
  = match user req with
    | None =>
        inl (mkHttpException
               "Failed to compare patent: Cannot read properties of undefined (reading 'id')"
               INTERNAL_SERVER_ERROR)
    | Some _ =>
        match lookup_patent (CompareRequest.patent_id cr)
                            (CompareRequest.workspace_id cr) (patents st) with
        | None =>
            inl (mkHttpException
                   "Failed to compare patent: Patent not found or access denied"
                   INTERNAL_SERVER_ERROR)
        | Some _ => inr (comparison_of env cr)
        end
    end.
Proof.
  destruct (user req) as [u|] eqn:Hu.
  - destruct (lookup_patent _ _ _) as [p|] eqn:Hp.
    + exact (comparePatent_found env cr req st u p Hu Hp).
    + exact (comparePatent_missing env cr req st u Hu Hp).
  - exact (comparePatent_no_user env cr req st Hu).
Qed.

Lemma calculateNovelty_run env nr req st :
  run (calculateNovelty env nr req) st
  = match user req with
    | None =>
        inl (mkHttpException
               "Failed to calculate novelty: Cannot read properties of undefined (reading 'id')"
               INTERNAL_SERVER_ERROR)
    | Some _ =>
        match lookup_patent (NoveltyRequest.patent_id nr)
                            (NoveltyRequest.workspace_id nr) (patents st) with
        | None =>
            inl (mkHttpException
                   "Failed to calculate novelty: Patent not found or access denied"
                   INTERNAL_SERVER_ERROR)
        | Some _ => inr (novelty_of env nr)
        end
    end.
Proof.
  destruct (user req) as [u|] eqn:Hu.
  - destruct (lookup_patent _ _ _) as [p|] eqn:Hp.
    + exact (calculateNovelty_found env nr req st u p Hu Hp).
    + exact (calculateNovelty_missing env nr req st u Hu Hp).
  - exact (calculateNovelty_no_user env nr req st Hu).
Qed.

(* ------------------------------------------------------------------ *)
(** ** Alignment labels and similarity scores of the compare operation *)

(** C1. The compare operation labels its alignments [high_similarity]
    (first reference) and [medium_similarity] (every later reference):
    for every patent, claim and list of references, no alignment it builds
    carries one of the four labels overlap, paraphrase, gap, ambiguous; and
    on the sample request with two references the response carries exactly
    the labels [high_similarity; medium_similarity]. *)
Theorem C1_compare_labels_outside_classifier_set :
  (forall patent_id claim_num refs,
      Forall (fun a => label_in_spec (AlignmentItem.alignment_type a) = false)
             (getMockAlignments patent_id claim_num refs))
  /\ exists resp,
      run (comparePatent Samples.env_a Samples.compare_two
                         Samples.request_alice) Samples.store_full
      = inr resp
      /\ map AlignmentItem.alignment_type (ComparisonResponse.alignments resp)
         = ["high_similarity"; "medium_similarity"].
Proof.
  split.
  - intros patent_id claim_num refs. unfold getMockAlignments, Js.mapi.
    apply mapi_from_Forall. intros ref_id index _.
    destruct index; reflexivity.
  - eexists. split; reflexivity.
Qed.

(** C2 (as stated, refuted). With ten references the compare operation
    answers, and the alignment of the tenth reference has the similarity
    score 0.8 - 9 * 0.1, which is below 0. *)
Lemma C2_counterexample_tenth_reference :
  exists resp a,
    run (comparePatent Samples.env_a Samples.compare_ten
                       Samples.request_alice) Samples.store_alone
    = inr resp
    /\ In a (ComparisonResponse.alignments resp)
    /\ AlignmentItem.reference_patent_id a = "r9"
    /\ PrimFloat.ltb (AlignmentItem.similarity_score a) 0 = true
    /\ Js.in_unit_interval (AlignmentItem.similarity_score a) = false.
Proof.
  eexists. eexists. split; [reflexivity|].
  split; [do 9 right; left; reflexivity|].
  repeat split; vm_compute; reflexivity.
Qed.

(** C2 (amended). For every compare request with at most nine references
    that is answered, the similarity score of every alignment of the
    response lies in the closed interval [0,1] (so it is not NaN). *)
Theorem C2_similarity_in_unit_interval_up_to_nine_refs
        env cr req st resp :
  length (CompareRequest.refs cr) <= 9 ->
  run (comparePatent env cr req) st = inr resp ->
  Forall (fun a =>
            Js.in_unit_interval (AlignmentItem.similarity_score a) = true)
         (ComparisonResponse.alignments resp).
Proof.
  intros Hlen Hrun. apply comparePatent_inv in Hrun. subst resp.
  cbn [comparison_of ComparisonResponse.alignments].
  unfold getMockAlignments, Js.mapi. apply mapi_from_Forall.
  intros ref_id index Hindex. cbn [AlignmentItem.similarity_score].
  apply mock_score_in_unit_interval. lia.
Qed.

Lemma C2_witness_nine_refs :
  length (CompareRequest.refs Samples.compare_nine) <= 9
  /\ Forall (fun a =>
               Js.in_unit_interval (AlignmentItem.similarity_score a) = true)
            (ComparisonResponse.alignments
               (comparison_of Samples.env_a Samples.compare_nine)).
Proof.
  split.
  - simpl. lia.
  - apply (C2_similarity_in_unit_interval_up_to_nine_refs
             Samples.env_a Samples.compare_nine Samples.request_alice
             Samples.store_alone).
    + simpl. lia.
    + reflexivity.
Defined.

(* ------------------------------------------------------------------ *)
(** ** Scores of the novelty operation *)

(** C3 (as stated, refuted). For the sample claim the compare operation
    aligns clause 0 with similarity 0.8 and aligns nothing to clause 1, so
    in the words of the specification clause 0 has novelty 1 - 0.8 and
    clause 1 has novelty 1; the novelty operation reports 0.8 for clause 0
    and 0.7 for clause 1. *)
Lemma C3_counterexample_clause_novelty_not_derived :
  exists comparison novelty d0 d1,
    run (comparePatent Samples.env_a Samples.compare_one
                       Samples.request_alice) Samples.store_full
    = inr comparison
    /\ run (calculateNovelty Samples.env_a Samples.novelty_1
                             Samples.request_alice) Samples.store_full
       = inr novelty
    /\ NoveltyResponse.clause_details novelty = [d0; d1]
    /\ ClauseDetail.clause_index d0 = 0
    /\ ClauseDetail.clause_index d1 = 1
    /\ max_similarity 0 (ComparisonResponse.alignments comparison)
       = Some 0.8%float
    /\ max_similarity 1 (ComparisonResponse.alignments comparison) = None
    /\ PrimFloat.eqb
         (ClauseDetail.novelty_score d0)
         (spec_clause_novelty 0 (ComparisonResponse.alignments comparison))
       = false
    /\ PrimFloat.eqb
         (ClauseDetail.novelty_score d1)
         (spec_clause_novelty 1 (ComparisonResponse.alignments comparison))
       = false.
Proof.
  do 4 eexists. split; [reflexivity|]. split; [reflexivity|].
  split; [reflexivity|]. repeat split; vm_compute; reflexivity.
Qed.

(** C3 (amended). For every novelty request of a signed-in user on a
    patent of the workspace, the operation answers; the claim-level
    novelty score and every per-clause novelty score of the answer lie in
    [0,1]; the claim-level score is the constant 0.75 and the per-clause
    scores are the constants 0.8 (clause 0) and 0.7 (clause 1), whatever
    is stored and whatever the compare operation aligns. *)
Theorem C3_novelty_scores_constant_in_unit_interval env nr req st u p :
  user req = Some u ->
  lookup_patent (NoveltyRequest.patent_id nr) (NoveltyRequest.workspace_id nr)
                (patents st) = Some p ->
  exists resp,
    run (calculateNovelty env nr req) st = inr resp
    /\ Js.in_unit_interval (NoveltyResponse.novelty_score resp) = true
    /\ Forall (fun d =>
                 Js.in_unit_interval (ClauseDetail.novelty_score d) = true)
              (NoveltyResponse.clause_details resp)
    /\ NoveltyResponse.novelty_score resp = 0.75%float
    /\ map (fun d => (ClauseDetail.clause_index d,
                      ClauseDetail.novelty_score d))
           (NoveltyResponse.clause_details resp)
       = [(0, 0.8%float); (1, 0.7%float)].
Proof.
  intros Hu Hp. exists (novelty_of env nr). split.
  - exact (calculateNovelty_found env nr req st u p Hu Hp).
  - split; [vm_compute; reflexivity|].
    cbn [novelty_of NoveltyResponse.clause_details
         NoveltyResponse.novelty_score].
    split; [repeat constructor|]. split; reflexivity.
Qed.

Lemma C3_witness_sample_claim :
  exists resp,
    run (calculateNovelty Samples.env_a Samples.novelty_1
                          Samples.request_alice) Samples.store_full
    = inr resp
    /\ Js.in_unit_interval (NoveltyResponse.novelty_score resp) = true
    /\ Forall (fun d =>
                 Js.in_unit_interval (ClauseDetail.novelty_score d) = true)
              (NoveltyResponse.clause_details resp)
    /\ NoveltyResponse.novelty_score resp = 0.75%float
    /\ map (fun d => (ClauseDetail.clause_index d,
                      ClauseDetail.novelty_score d))
           (NoveltyResponse.clause_details resp)
       = [(0, 0.8%float); (1, 0.7%float)].
Proof.
  apply (C3_novelty_scores_constant_in_unit_interval
           Samples.env_a Samples.novelty_1 Samples.request_alice
           Samples.store_full Samples.alice Samples.target_patent);
    reflexivity.
Defined.

(** C4 (as stated, refuted). In a workspace that holds the target patent
    alone, with no reference and no passage at all, the novelty operation
    answers, but no per-clause entry has novelty 1 with low confidence: the
    entries are (0.8, high) and (0.7, medium), and the band is high. *)
Lemma C4_counterexample_no_passage_at_all :
  passages Samples.store_alone = []
  /\ exists resp,
      run (calculateNovelty Samples.env_a Samples.novelty_1
                            Samples.request_alice) Samples.store_alone
      = inr resp
      /\ existsb full_novelty_low_confidence
                 (NoveltyResponse.clause_details resp) = false
      /\ NoveltyResponse.confidence_band resp = "high".
Proof.
  split; [reflexivity|]. eexists. split; [reflexivity|].
  split; vm_compute; reflexivity.
Qed.

(** C4 (amended). For every novelty request of a signed-in user on a
    patent of the workspace, whatever the passages table holds (also when
    it is empty), the result is not an error; its per-clause list is always
    clause 0 with novelty 0.8 and confidence high, then clause 1 with
    novelty 0.7 and confidence medium; the band is high and the status is
    completed. *)
Theorem C4_novelty_answer_ignores_passages env nr req st u p rows :
  user req = Some u ->
  lookup_patent (NoveltyRequest.patent_id nr) (NoveltyRequest.workspace_id nr)
                (patents st) = Some p ->
  exists resp,
    run (calculateNovelty env nr req) (with_passages rows st) = inr resp
    /\ map (fun d => (ClauseDetail.clause_index d,
                      ClauseDetail.novelty_score d,
                      ClauseDetail.confidence d))
           (NoveltyResponse.clause_details resp)
       = [(0, 0.8%float, "high"); (1, 0.7%float, "medium")]
    /\ NoveltyResponse.confidence_band resp = "high"
    /\ NoveltyResponse.status resp = "completed".
Proof.
  intros Hu Hp. exists (novelty_of env nr). split.
  - apply (calculateNovelty_found env nr req (with_passages rows st) u p Hu).
    exact Hp.
  - repeat split.
Qed.

Lemma C4_witness_empty_passages :
  exists resp,
    run (calculateNovelty Samples.env_a Samples.novelty_1
                          Samples.request_alice)
        (with_passages [] Samples.store_full) = inr resp
    /\ map (fun d => (ClauseDetail.clause_index d,
                      ClauseDetail.novelty_score d,
                      ClauseDetail.confidence d))
           (NoveltyResponse.clause_details resp)
       = [(0, 0.8%float, "high"); (1, 0.7%float, "medium")]
    /\ NoveltyResponse.confidence_band resp = "high"
    /\ NoveltyResponse.status resp = "completed".
Proof.
  apply (C4_novelty_answer_ignores_passages
           Samples.env_a Samples.novelty_1 Samples.request_alice
           Samples.store_full Samples.alice Samples.target_patent []);
    reflexivity.
Defined.

(* ------------------------------------------------------------------ *)
(** ** References used by the compare operation *)

(** C5 (as stated, refuted). The target patent has priority date
    2020-01-01; the reference [pat-late] was published on 2023-06-01.
    The compare operation answers with an alignment that references
    [pat-late]. *)
Lemma C5_counterexample_reference_after_priority :
  Patent.prio_date Samples.target_patent = Some Samples.date_2020
  /\ exists resp a,
      run (comparePatent Samples.env_a Samples.compare_one
                         Samples.request_alice) Samples.store_full
      = inr resp
      /\ In a (ComparisonResponse.alignments resp)
      /\ AlignmentItem.reference_patent_id a = "pat-late"
      /\ published_after Samples.publication_dates Samples.date_2020 a = true.
Proof.
  split; [reflexivity|]. eexists. eexists. split; [reflexivity|].
  split; [left; reflexivity|]. split; reflexivity.
Qed.

(** C5 (amended). For every compare request of a signed-in user on a
    patent of the workspace, the operation answers, and the alignments of
    the answer reference exactly the supplied references, one alignment
    per reference and in the order given, whatever the dates of the
    documents. *)
Theorem C5_alignments_reference_every_supplied_ref env cr req st u p :
  user req = Some u ->
  lookup_patent (CompareRequest.patent_id cr) (CompareRequest.workspace_id cr)
                (patents st) = Some p ->
  exists resp,
    run (comparePatent env cr req) st = inr resp
    /\ map AlignmentItem.reference_patent_id
           (ComparisonResponse.alignments resp)
       = CompareRequest.refs cr.
Proof.
  intros Hu Hp. exists (comparison_of env cr). split.
  - exact (comparePatent_found env cr req st u p Hu Hp).
  - apply getMockAlignments_references.
Qed.

Lemma C5_witness_two_references :
  exists resp,
    run (comparePatent Samples.env_a Samples.compare_two
                       Samples.request_alice) Samples.store_full
    = inr resp
    /\ map AlignmentItem.reference_patent_id
           (ComparisonResponse.alignments resp)
       = ["pat-late"; "pat-other"].
Proof.
  apply (C5_alignments_reference_every_supplied_ref
           Samples.env_a Samples.compare_two Samples.request_alice
           Samples.store_full Samples.alice Samples.target_patent);
    reflexivity.
Defined.

(* ------------------------------------------------------------------ *)
(** ** Obviousness against novelty *)

(** C6. For every novelty request of a signed-in user on a patent of the
    workspace, the operation answers with finite scores, and for every
    slack that is not negative the obviousness score is at most
    (1 - claim-level novelty) + slack; the inequality already holds
    without slack in binary64 arithmetic. *)
Theorem C6_obviousness_within_slack env nr req st u p (slack : Q) :
  user req = Some u ->
  lookup_patent (NoveltyRequest.patent_id nr) (NoveltyRequest.workspace_id nr)
                (patents st) = Some p ->
  (0 <= slack)%Q ->
  exists resp obviousness novelty,
    run (calculateNovelty env nr req) st = inr resp
    /\ Js.to_Q (NoveltyResponse.obviousness_score resp) = Some obviousness
    /\ Js.to_Q (NoveltyResponse.novelty_score resp) = Some novelty
    /\ (obviousness <= (1 - novelty) + slack)%Q
    /\ PrimFloat.leb (NoveltyResponse.obviousness_score resp)
                     (1 - NoveltyResponse.novelty_score resp)%float = true.
Proof.
  intros Hu Hp Hslack. exists (novelty_of env nr).
  eexists. eexists. split.
  - exact (calculateNovelty_found env nr req st u p Hu Hp).
  - split; [vm_compute; reflexivity|].
    split; [vm_compute; reflexivity|].
    split; [|vm_compute; reflexivity].
    lra.
Qed.

Lemma C6_witness_slack_one_twentieth :
  exists resp obviousness novelty,
    run (calculateNovelty Samples.env_a Samples.novelty_1
                          Samples.request_alice) Samples.store_full
    = inr resp
    /\ Js.to_Q (NoveltyResponse.obviousness_score resp) = Some obviousness
    /\ Js.to_Q (NoveltyResponse.novelty_score resp) = Some novelty
    /\ (obviousness <= (1 - novelty) + (1 # 20))%Q
    /\ PrimFloat.leb (NoveltyResponse.obviousness_score resp)
                     (1 - NoveltyResponse.novelty_score resp)%float = true.
Proof.
  apply (C6_obviousness_within_slack
           Samples.env_a Samples.novelty_1 Samples.request_alice
           Samples.store_full Samples.alice Samples.target_patent (1 # 20));
    [reflexivity | reflexivity | vm_compute; discriminate].
Defined.

(* ------------------------------------------------------------------ *)
(** ** Determinism *)

(** C7 (as stated, refuted). The same compare request and the same novelty
    request, run on the same store at two different instants, get different
    answers: the identifier of the answer is built from the clock and
    the random generator. *)
Lemma C7_counterexample_identifier_from_clock :
  run (comparePatent Samples.env_a Samples.compare_one
                     Samples.request_alice) Samples.store_full
  <> run (comparePatent Samples.env_b Samples.compare_one
                        Samples.request_alice) Samples.store_full
  /\ run (calculateNovelty Samples.env_a Samples.novelty_1
                           Samples.request_alice) Samples.store_full
     <> run (calculateNovelty Samples.env_b Samples.novelty_1
                              Samples.request_alice) Samples.store_full.
Proof.
  split; intros H; vm_compute in H; discriminate H.
Qed.

(** C7 (amended). Two invocations of compare, or of novelty, with the same
    request on stores with the same patents table end alike, and when both
    answer, the answers agree on every field except the generated
    identifier ([comparison_id], [novelty_id]): in particular the
    alignments are identical. When moreover the clock and the random
    generator give the same values, the answers are identical. *)
Theorem C7_deterministic_up_to_generated_id env1 env2 req st1 st2 :
  patents st1 = patents st2 ->
  (forall cr,
      same_comparison_up_to_id (run (comparePatent env1 cr req) st1)
                               (run (comparePatent env2 cr req) st2))
  /\ (forall nr,
         same_novelty_up_to_id (run (calculateNovelty env1 nr req) st1)
                               (run (calculateNovelty env2 nr req) st2))
  /\ (now env1 = now env2 ->
      random_base36 env1 = random_base36 env2 ->
      (forall cr, run (comparePatent env1 cr req) st1
                  = run (comparePatent env2 cr req) st2)
      /\ (forall nr, run (calculateNovelty env1 nr req) st1
                     = run (calculateNovelty env2 nr req) st2)).
Proof.
  intros Hpatents. split; [|split].
  - intros cr. rewrite !comparePatent_run, Hpatents.
    destruct (user req); [|reflexivity].
    destruct (lookup_patent _ _ _); reflexivity.
  - intros nr. rewrite !calculateNovelty_run, Hpatents.
    destruct (user req); [|reflexivity].
    destruct (lookup_patent _ _ _); reflexivity.
  - intros Hnow Hrandom. split.
    + intros cr. rewrite !comparePatent_run, Hpatents.
      unfold comparison_of, generateComparisonId, generateId.
      now rewrite Hnow, Hrandom.
    + intros nr. rewrite !calculateNovelty_run, Hpatents.
      unfold novelty_of, generateNoveltyId, generateId.
      now rewrite Hnow, Hrandom.
Qed.

Lemma C7_witness_two_instants :
  same_comparison_up_to_id
    (run (comparePatent Samples.env_a Samples.compare_two
                        Samples.request_alice) Samples.store_full)
    (run (comparePatent Samples.env_b Samples.compare_two
                        Samples.request_alice)
         (snd (comparePatent Samples.env_a Samples.compare_two
                             Samples.request_alice Samples.store_full))).
Proof.
  apply (C7_deterministic_up_to_generated_id
           Samples.env_a Samples.env_b Samples.request_alice
           Samples.store_full
           (snd (comparePatent Samples.env_a Samples.compare_two
                               Samples.request_alice Samples.store_full))).
  reflexivity.
Defined.

(* ------------------------------------------------------------------ *)
(** ** Clauses accounted for by a novelty result *)

(** C8 (as stated, refuted). Claim 1 of the sample patent has three
    clauses. The novelty operation answers with status completed, and its
    per-clause detail has no entry for the third clause (index 2). *)
Lemma C8_counterexample_third_clause_omitted :
  In Samples.clause_2 (clauses_of Samples.store_full "pat-target" 1)
  /\ exists resp,
      run (calculateNovelty Samples.env_a Samples.novelty_1
                            Samples.request_alice) Samples.store_full
      = inr resp
      /\ detail_covers resp Samples.clause_2 = false
      /\ length (NoveltyResponse.clause_details resp) = 2
      /\ NoveltyResponse.status resp = "completed".
Proof.
  split; [vm_compute; auto|].
  eexists. split; [reflexivity|]. repeat split.
Qed.

(** C8 (amended). For every novelty request of a signed-in user on a
    patent of the workspace, whatever claims and clauses are stored, the
    per-clause detail of the result has exactly two entries, for the clause
    indices 0 and 1: a clause has an entry there exactly when its index is
    0 or 1. The status of the result is completed. *)
Theorem C8_clause_detail_is_indices_zero_and_one env nr req st u p cs cls :
  user req = Some u ->
  lookup_patent (NoveltyRequest.patent_id nr) (NoveltyRequest.workspace_id nr)
                (patents st) = Some p ->
  exists resp,
    run (calculateNovelty env nr req) (with_claims cs cls st) = inr resp
    /\ map ClauseDetail.clause_index (NoveltyResponse.clause_details resp)
       = [0; 1]
    /\ (forall cl : Clause.t,
           detail_covers resp cl = true
           <-> (Clause.clause_index cl = 0 \/ Clause.clause_index cl = 1)%Z)
    /\ NoveltyResponse.status resp = "completed".
Proof.
  intros Hu Hp. exists (novelty_of env nr). split.
  - apply (calculateNovelty_found env nr req (with_claims cs cls st) u p Hu).
    exact Hp.
  - split; [reflexivity|]. split; [|reflexivity].
    intros cl. unfold detail_covers.
    cbn [novelty_of NoveltyResponse.clause_details existsb
         ClauseDetail.clause_index].
    rewrite orb_false_r, orb_true_iff, !Z.eqb_eq.
    change (Z.of_nat 0) with 0%Z. change (Z.of_nat 1) with 1%Z.
    intuition congruence.
Qed.

Lemma C8_witness_two_clause_claim :
  exists resp,
    run (calculateNovelty Samples.env_a Samples.novelty_1
                          Samples.request_alice)
        (with_claims [Samples.claim_1] [Samples.clause_0; Samples.clause_1]
                     Samples.store_full) = inr resp
    /\ map ClauseDetail.clause_index (NoveltyResponse.clause_details resp)
       = [0; 1]
    /\ (forall cl : Clause.t,
           detail_covers resp cl = true
           <-> (Clause.clause_index cl = 0 \/ Clause.clause_index cl = 1)%Z)
    /\ NoveltyResponse.status resp = "completed".
Proof.
  apply (C8_clause_detail_is_indices_zero_and_one
           Samples.env_a Samples.novelty_1 Samples.request_alice
           Samples.store_full Samples.alice Samples.target_patent
           [Samples.claim_1] [Samples.clause_0; Samples.clause_1]);
    reflexivity.
Defined.

(* ------------------------------------------------------------------ *)
(** ** The novelty answer is a constant *)

(** C9. Any two novelty requests of signed-in users on patents of their
    workspace are answered, whatever the patent, the claim number and the
    stored claims, clauses and passages, with the same score fields:
    novelty 0.75, obviousness 0.25, band high, the same two per-clause
    entries and status completed. Besides the echoed [patent_id] and
    [claim_num], only the generated [novelty_id] differs. *)
Theorem C9_novelty_answer_is_constant
        env1 env2 nr1 nr2 req1 req2 st1 st2 u1 u2 p1 p2 :
  user req1 = Some u1 ->
  lookup_patent (NoveltyRequest.patent_id nr1)
                (NoveltyRequest.workspace_id nr1) (patents st1) = Some p1 ->
  user req2 = Some u2 ->
  lookup_patent (NoveltyRequest.patent_id nr2)
                (NoveltyRequest.workspace_id nr2) (patents st2) = Some p2 ->
  exists r1 r2,
    run (calculateNovelty env1 nr1 req1) st1 = inr r1
    /\ run (calculateNovelty env2 nr2 req2) st2 = inr r2
    /\ r1 = NoveltyResponse.mk
              (generateNoveltyId env1)
              (NoveltyRequest.patent_id nr1) (NoveltyRequest.claim_num nr1)
              0.75%float 0.25%float "high"
              [ ClauseDetail.mk 0 "Mock clause 1" 0.8%float "high";
                ClauseDetail.mk 1 "Mock clause 2" 0.7%float "medium" ]
              "completed"
    /\ NoveltyResponse.novelty_score r2 = NoveltyResponse.novelty_score r1
    /\ NoveltyResponse.obviousness_score r2
       = NoveltyResponse.obviousness_score r1
    /\ NoveltyResponse.confidence_band r2 = NoveltyResponse.confidence_band r1
    /\ NoveltyResponse.clause_details r2 = NoveltyResponse.clause_details r1
    /\ NoveltyResponse.status r2 = NoveltyResponse.status r1.
Proof.
  intros Hu1 Hp1 Hu2 Hp2.
  exists (novelty_of env1 nr1), (novelty_of env2 nr2). split.
  - exact (calculateNovelty_found env1 nr1 req1 st1 u1 p1 Hu1 Hp1).
  - split.
    + exact (calculateNovelty_found env2 nr2 req2 st2 u2 p2 Hu2 Hp2).
    + repeat split.
Qed.

Lemma C9_witness_two_stores :
  exists r1 r2,
    run (calculateNovelty Samples.env_a Samples.novelty_1
                          Samples.request_alice) Samples.store_alone = inr r1
    /\ run (calculateNovelty Samples.env_b
                             (NoveltyRequest.mk "pat-late" 7 "ws-1")
                             Samples.request_alice) Samples.store_full
       = inr r2
    /\ r1 = NoveltyResponse.mk
              (generateNoveltyId Samples.env_a) "pat-target" 1
              0.75%float 0.25%float "high"
              [ ClauseDetail.mk 0 "Mock clause 1" 0.8%float "high";
                ClauseDetail.mk 1 "Mock clause 2" 0.7%float "medium" ]
              "completed"
    /\ NoveltyResponse.novelty_score r2 = NoveltyResponse.novelty_score r1
    /\ NoveltyResponse.obviousness_score r2
       = NoveltyResponse.obviousness_score r1
    /\ NoveltyResponse.confidence_band r2 = NoveltyResponse.confidence_band r1
    /\ NoveltyResponse.clause_details r2 = NoveltyResponse.clause_details r1
    /\ NoveltyResponse.status r2 = NoveltyResponse.status r1.
Proof.
  apply (C9_novelty_answer_is_constant
           Samples.env_a Samples.env_b Samples.novelty_1
           (NoveltyRequest.mk "pat-late" 7 "ws-1")
           Samples.request_alice Samples.request_alice
           Samples.store_alone Samples.store_full
           Samples.alice Samples.alice
           Samples.target_patent Samples.late_reference);
    reflexivity.
Defined.

(* ------------------------------------------------------------------ *)
(** ** Workspace access *)










(** Every outcome of the guard, store included. *)
Lemma canActivate_outcome request body_workspace_id st :
  WorkspaceGuard.canActivate request body_workspace_id st
  = (match user request,
           guard_workspace_id request body_workspace_id with
     | Some u, Some ws =>
         match find (fun m => (Membership.user_id m =? User.id u)
                              && (Membership.workspace_id m =? ws))%bool
                    (memberships st) with
         | None => inl (ForbiddenException access_denied)
         | Some _ => inr true
         end
     | _, _ => inl (ForbiddenException "User or workspace not specified")
     end, st).
Proof.
  unfold WorkspaceGuard.canActivate, guard_workspace_id.
  destruct (user request) as [u|]; [|reflexivity].
  destruct (Js.or_else (Js.or_else _ _) _) as [ws|]; [|reflexivity].
  unfold Js.or_else at 1.
  destruct (Js.truthy ws); [|reflexivity].
  unfold bind, WorkspaceGuard.membership_findOne, gets. simpl.
  destruct (find _ (memberships st)); reflexivity.
Qed.

(** When the guard fails, it is for one of its two reasons. *)
Lemma canActivate_failure request body_workspace_id st e :
  run (WorkspaceGuard.canActivate request body_workspace_id) st = inl e ->
  (e = ForbiddenException access_denied
   /\ not_a_member request body_workspace_id st)
  \/ (e = ForbiddenException "User or workspace not specified"
      /\ (user request = None
          \/ guard_workspace_id request body_workspace_id = None)).
Proof.
  unfold run, not_a_member. rewrite canActivate_outcome. cbn [fst].
  destruct (user request) as [u|].
  - destruct (guard_workspace_id request body_workspace_id) as [ws|].
    + destruct (find _ (memberships st)) eqn:Hfind;
        intros H; inversion H; subst.
      left. split; [reflexivity|]. exists u, ws. auto.
    + intros H; inversion H; subst. right. auto.
  - intros H; inversion H; subst. right. auto.
Qed.

Lemma canActivate_not_a_member request body_workspace_id st :
  not_a_member request body_workspace_id st ->
  run (WorkspaceGuard.canActivate request body_workspace_id) st
  = inl (ForbiddenException access_denied).
Proof.
  intros (u & ws & Hu & Hws & Hfind).
  unfold run. rewrite canActivate_outcome, Hu, Hws, Hfind. reflexivity.
Qed.

(** The guard does not write to the store. *)
Lemma canActivate_store request body_workspace_id st :
  snd (WorkspaceGuard.canActivate request body_workspace_id st) = st.
Proof. rewrite canActivate_outcome. reflexivity. Qed.




(* ------------------------------------------------------------------ *)
(** ** Further properties of the controller

    The statements below are read off the handlers themselves. *)

(** X1. No ingest request is answered and none writes anything: the
    handler builds the patent row without [pub_number], which the schema
    declares NOT NULL without default, so the save is rejected before
    anything is published or audited, and the request fails with status
    500 (as does a request without user). *)
Theorem X1_ingest_never_stores env body req st :
  ingestPatent env body req st
  = (inl (mkHttpException
            ("Failed to ingest patent: "
               ++ match user req with
                  | Some _ => not_null_violation "pub_number" "patents"
                  | None =>
                      "Cannot read properties of undefined (reading 'id')"
                  end)
            INTERNAL_SERVER_ERROR),
     st).
Proof.
  step_handler. destruct (user req); reflexivity.
Qed.

(** The outcome of [GET patents/:id], store included. *)
Lemma getPatent_outcome patent_id req st :
  getPatent patent_id req st
  = (match user req with
     | None =>
         inl (mkHttpException
                "Failed to get patent: Cannot read properties of undefined (reading 'id')"
                INTERNAL_SERVER_ERROR)
     | Some _ =>
         match find (fun p => Patent.id p =? patent_id) (patents st) with
         | Some p => inr p
         | None => inl (mkHttpException "Patent not found" NOT_FOUND)
         end
     end, st).
Proof.
  unfold getPatent, patent_findOne_by_id. step_handler.
  destruct (user req); [|reflexivity]. simpl.
  destruct (find _ (patents st)); reflexivity.
Qed.

(** X3. Compare, novelty and claim chart save an audit row exactly when
    they answer: a request that fails changes no table, and a request that
    is answered logs one line and saves one audit row, which names the
    user, the workspace of the body and the identifier returned in the
    answer; no other table changes. *)
Theorem X3_scoring_handlers_audit_once env req st :
  (forall cr,
      match comparePatent env cr req st with
      | (inl _, st') => same_tables st st'
      | (inr resp, st') =>
          exists u line,
            user req = Some u
            /\ st' = audited
                 (AuditLog.mk (CompareRequest.workspace_id cr) (User.id u)
                    "patent_compare" "comparison" None
                    (CompareDetails (CompareRequest.patent_id cr)
                                    (CompareRequest.claim_num cr)
                                    (CompareRequest.refs cr)
                                    (ComparisonResponse.comparison_id resp)))
                 line st
      end)
  /\ (forall nr,
         match calculateNovelty env nr req st with
         | (inl _, st') => same_tables st st'
         | (inr resp, st') =>
             exists u line,
               user req = Some u
               /\ st' = audited
                    (AuditLog.mk (NoveltyRequest.workspace_id nr) (User.id u)
                       "patent_novelty" "novelty" None
                       (NoveltyDetails (NoveltyRequest.patent_id nr)
                                       (NoveltyRequest.claim_num nr)
                                       (NoveltyResponse.novelty_id resp)))
                    line st
         end)
  /\ (forall chr,
         match generateClaimChart env chr req st with
         | (inl _, st') => same_tables st st'
         | (inr resp, st') =>
             exists u line,
               user req = Some u
               /\ st' = audited
                    (AuditLog.mk (ChartRequest.workspace_id chr) (User.id u)
                       "chart_generate" "chart" None
                       (ChartDetails (ChartRequest.patent_id chr)
                                     (ChartRequest.claim_num chr)
                                     (ChartRequest.chart_type chr)
                                     (ChartResponse.chart_id resp)))
                    line st
         end).
Proof.
  split; [|split]; intros body; step_handler;
    (destruct (user req) as [u|]; [|repeat split]);
    cbn [negb hasWorkspaceAccess];
    (destruct (lookup_patent _ _ (patents st)); [|repeat split]);
    exists u; eexists; split; reflexivity.
Qed.




(** The outcome of [GET patents/:id/claims], store included. *)
Lemma getPatentClaims_outcome find_ordered patent_id req st :
  getPatentClaims find_ordered patent_id req st
  = (match user req with
     | None =>
         inl (mkHttpException
                "Failed to get patent claims: Cannot read properties of undefined (reading 'id')"
                INTERNAL_SERVER_ERROR)
     | Some _ =>
         match find (fun p => Patent.id p =? patent_id) (patents st) with
         | Some _ => inr (find_ordered (claims st) patent_id)
         | None => inl (mkHttpException "Patent not found" NOT_FOUND)
         end
     end, st).
Proof.
  unfold getPatentClaims, patent_findOne_by_id. step_handler.
  destruct (user req); [|reflexivity]. simpl.
  destruct (find _ (patents st)); reflexivity.
Qed.

(** X5. The handlers that read one patent keep the status of a missing
    patent: [GET patents/:id] and [GET patents/:id/claims] fail with 404
    "Patent not found" when no row has the identifier, while compare,
    novelty and chart answer the same situation with status 500. Only a
    request without user fails with 500 in the reading handlers. *)
Theorem X5_missing_patent_status find_ordered patent_id req st u :
  user req = Some u ->
  find (fun p => Patent.id p =? patent_id) (patents st) = None ->
  run (getPatent patent_id req) st
  = inl (mkHttpException "Patent not found" NOT_FOUND)
  /\ run (getPatentClaims find_ordered patent_id req) st
     = inl (mkHttpException "Patent not found" NOT_FOUND)
  /\ (forall env claim_num refs workspace_id,
         exists e,
           run (comparePatent env
                  (CompareRequest.mk patent_id claim_num refs workspace_id)
                  req) st = inl e
           /\ status e = INTERNAL_SERVER_ERROR)
  /\ (forall env claim_num workspace_id,
         exists e,
           run (calculateNovelty env
                  (NoveltyRequest.mk patent_id claim_num workspace_id)
                  req) st = inl e
           /\ status e = INTERNAL_SERVER_ERROR).
Proof.
  intros Hu Hnone.
  assert (Hlookup : forall workspace_id,
             lookup_patent patent_id workspace_id (patents st) = None).
  { intros workspace_id. unfold lookup_patent.
    revert Hnone. induction (patents st) as [|p rows IH]; simpl;
      [reflexivity|].
    destruct (Patent.id p =? patent_id); [discriminate|]. exact IH. }
  unfold run. rewrite getPatent_outcome, getPatentClaims_outcome, Hu, Hnone.
  split; [reflexivity|]. split; [reflexivity|]. split.
  - intros env claim_num refs workspace_id. eexists. split.
    + apply (comparePatent_missing _ _ _ _ u Hu). apply Hlookup.
    + reflexivity.
  - intros env claim_num workspace_id. eexists. split.
    + apply (calculateNovelty_missing _ _ _ _ u Hu). apply Hlookup.
    + reflexivity.
Qed.

Lemma X5_witness_unknown_patent :
  run (getPatent "pat-unknown" Samples.request_alice) Samples.store_full
  = inl (mkHttpException "Patent not found" NOT_FOUND)
  /\ run (getPatentClaims MoreSamples.claims_in_stored_order "pat-unknown"
                          Samples.request_alice) Samples.store_full
     = inl (mkHttpException "Patent not found" NOT_FOUND)
  /\ (forall env claim_num refs workspace_id,
         exists e,
           run (comparePatent env
                  (CompareRequest.mk "pat-unknown" claim_num refs
                                     workspace_id)
                  Samples.request_alice) Samples.store_full = inl e
           /\ status e = INTERNAL_SERVER_ERROR)
  /\ (forall env claim_num workspace_id,
         exists e,
           run (calculateNovelty env
                  (NoveltyRequest.mk "pat-unknown" claim_num workspace_id)
                  Samples.request_alice) Samples.store_full = inl e
           /\ status e = INTERNAL_SERVER_ERROR).
Proof.
  apply (X5_missing_patent_status MoreSamples.claims_in_stored_order
           "pat-unknown" Samples.request_alice Samples.store_full
           Samples.alice); reflexivity.
Defined.

(* ------------------------------------------------------------------ *)
(** ** The guard in front of the handlers *)

Lemma is_member_find user_id workspace_id st :
  is_member user_id workspace_id st = true ->
  exists m,
    find (fun m => (Membership.user_id m =? user_id)
                   && (Membership.workspace_id m =? workspace_id))%bool
         (memberships st) = Some m.
Proof.
  unfold is_member. induction (memberships st) as [|m rows IH]; simpl;
    [discriminate|].
  destruct ((Membership.user_id m =? user_id)
            && (Membership.workspace_id m =? workspace_id))%bool.
  - intros _. exists m. reflexivity.
  - exact IH.
Qed.

(** The guard lets a member through and leaves the store alone. *)
Lemma canActivate_member request body_workspace_id st u ws :
  user request = Some u ->
  guard_workspace_id request body_workspace_id = Some ws ->
  is_member (User.id u) ws st = true ->
  WorkspaceGuard.canActivate request body_workspace_id st = (inr true, st).
Proof.
  intros Hu Hws Hmember. rewrite canActivate_outcome, Hu, Hws.
  destruct (is_member_find _ _ _ Hmember) as [m Hm]. rewrite Hm.
  reflexivity.
Qed.

(** A header that is set and not empty is the workspace of the guard. *)
Lemma guard_workspace_id_header request body_workspace_id h :
  header_x_workspace_id request = Some h ->
  Js.truthy h = true ->
  guard_workspace_id request body_workspace_id = Some h.
Proof.
  intros Hh Ht. unfold guard_workspace_id, Js.or_else.
  rewrite Hh, !Ht. reflexivity.
Qed.

(** A guarded route of a member is the handler itself. *)
Lemma guarded_member {A : Type} (handler : M A) request body_workspace_id
      st u ws :
  user request = Some u ->
  guard_workspace_id request body_workspace_id = Some ws ->
  is_member (User.id u) ws st = true ->
  Routes.guarded request body_workspace_id handler st = handler st.
Proof.
  intros Hu Hws Hmember. unfold Routes.guarded, bind.
  rewrite (canActivate_member request body_workspace_id st u ws Hu Hws
                              Hmember).
  reflexivity.
Qed.

(** X6. The guard never answers [false]: it returns [true] or throws a
    403, and it never writes to the store. For a signed-in user whose
    request carries a non-empty [x-workspace-id] header, it lets the
    request through exactly when the user has a membership row for the
    workspace of the header, whatever the body and the query string
    say. *)
Theorem X6_guard_outcome request body_workspace_id st :
  snd (WorkspaceGuard.canActivate request body_workspace_id st) = st
  /\ (forall allowed,
         run (WorkspaceGuard.canActivate request body_workspace_id) st
         = inr allowed -> allowed = true)
  /\ (forall e,
         run (WorkspaceGuard.canActivate request body_workspace_id) st
         = inl e -> status e = FORBIDDEN)
  /\ (forall u h,
         user request = Some u ->
         header_x_workspace_id request = Some h ->
         Js.truthy h = true ->
         (run (WorkspaceGuard.canActivate request body_workspace_id) st
          = inr true
          <-> is_member (User.id u) h st = true)).
Proof.
  split; [apply canActivate_store|].
  split; [|split].
  - unfold run. rewrite canActivate_outcome. cbn [fst]. intros allowed.
    destruct (user request); [|discriminate].
    destruct (guard_workspace_id request body_workspace_id);
      [|discriminate].
    destruct (find _ _); [|discriminate]. congruence.
  - intros e H. apply canActivate_failure in H.
    destruct H as [[He _] | [He _]]; subst e; reflexivity.
  - intros u h Hu Hh Ht.
    pose proof (guard_workspace_id_header request body_workspace_id h Hh Ht)
      as Hws.
    split.
    + intros Hrun.
      destruct (is_member (User.id u) h st) eqn:Hmember; [reflexivity|].
      exfalso.
      assert (Hnot : not_a_member request body_workspace_id st).
      { exists u, h. split; [exact Hu|]. split; [exact Hws|].
        destruct (find (fun m => (Membership.user_id m =? User.id u)
                                 && (Membership.workspace_id m =? h))%bool
                       (memberships st)) as [m|] eqn:Hfind; [|reflexivity].
        unfold is_member in Hmember.
        apply find_some in Hfind. destruct Hfind as [Hin Hm].
        assert (existsb (fun m => (Membership.user_id m =? User.id u)
                                  && (Membership.workspace_id m =? h))%bool
                        (memberships st) = true)
          by (apply existsb_exists; exists m; auto).
        congruence. }
      rewrite (canActivate_not_a_member _ _ _ Hnot) in Hrun. discriminate.
    + intros Hmember. unfold run.
      rewrite (canActivate_member request body_workspace_id st u h Hu Hws
                                  Hmember).
      reflexivity.
Qed.

(** X7. Reading a patent is not tied to its workspace: a signed-in user
    who is a member of the workspace named in the header gets, through
    the guarded routes [GET patents/:id] and [GET patents/:id/claims], the
    patent with the requested identifier and its claims, whatever
    workspace that patent belongs to. *)
Theorem X7_read_ignores_patent_workspace
        find_ordered request st u h patent_id p :
  user request = Some u ->
  header_x_workspace_id request = Some h ->
  Js.truthy h = true ->
  is_member (User.id u) h st = true ->
  find (fun p => Patent.id p =? patent_id) (patents st) = Some p ->
  run (Routes.get_patent patent_id request) st = inr p
  /\ run (Routes.get_patent_claims find_ordered patent_id request) st
     = inr (find_ordered (claims st) patent_id).
Proof.
  intros Hu Hh Ht Hmember Hp.
  pose proof (guard_workspace_id_header request None h Hh Ht) as Hws.
  unfold run, Routes.get_patent, Routes.get_patent_claims.
  rewrite !(guarded_member _ request None st u h Hu Hws Hmember).
  rewrite getPatent_outcome, getPatentClaims_outcome, Hu, Hp.
  split; reflexivity.
Qed.

Lemma X7_witness_foreign_patent :
  is_member "user-alice" "ws-2" MoreSamples.store_two_workspaces = false
  /\ Patent.workspace_id MoreSamples.foreign_patent = "ws-2"
  /\ run (Routes.get_patent "pat-foreign" Samples.request_alice)
         MoreSamples.store_two_workspaces
     = inr MoreSamples.foreign_patent
  /\ run (Routes.get_patent_claims MoreSamples.claims_in_stored_order
                                   "pat-foreign" Samples.request_alice)
         MoreSamples.store_two_workspaces
     = inr [MoreSamples.foreign_claim].
Proof.
  split; [reflexivity|]. split; [reflexivity|].
  apply (X7_read_ignores_patent_workspace
           MoreSamples.claims_in_stored_order Samples.request_alice
           MoreSamples.store_two_workspaces Samples.alice "ws-1"
           "pat-foreign" MoreSamples.foreign_patent); reflexivity.
Defined.

(** X8. The guard checks the workspace stored by the client, the handler
    works in the workspace of the body. When the client has a non-empty
    [workspace_id] in its local storage, its interceptor sends it as
    header; a user who is a member of that workspace then gets a compare
    request answered for a patent of the workspace named in the body,
    member of it or not. *)
Theorem X8_compare_in_workspace_of_body env storage u stored cr st p :
  ApiClient.workspace_id storage = Some stored ->
  Js.truthy stored = true ->
  is_member (User.id u) stored st = true ->
  lookup_patent (CompareRequest.patent_id cr) (CompareRequest.workspace_id cr)
                (patents st) = Some p ->
  run (Routes.post_compare env cr
         (ApiClient.post_request storage (Some u))) st
  = inr (comparison_of env cr).
Proof.
  intros Hstored Ht Hmember Hp.
  set (request := ApiClient.post_request storage (Some u)).
  assert (Hh : header_x_workspace_id request = Some stored).
  { unfold request, ApiClient.post_request, ApiClient.request_interceptor.
    cbn [header_x_workspace_id ApiClient.x_workspace_id].
    rewrite Hstored, Ht. reflexivity. }
  pose proof (guard_workspace_id_header
                request (Some (CompareRequest.workspace_id cr)) stored Hh Ht)
    as Hws.
  unfold run, Routes.post_compare.
  rewrite (guarded_member _ request _ st u stored eq_refl Hws Hmember).
  exact (comparePatent_found env cr request st u p eq_refl Hp).
Qed.

Lemma X8_witness_foreign_compare :
  is_member "user-alice" "ws-2" MoreSamples.store_two_workspaces = false
  /\ run (Routes.post_compare Samples.env_a MoreSamples.compare_foreign
            (ApiClient.post_request
               (ApiClient.mkLocalStorage (Some "token") (Some "ws-1"))
               (Some Samples.alice)))
         MoreSamples.store_two_workspaces
     = inr (comparison_of Samples.env_a MoreSamples.compare_foreign).
Proof.
  split; [reflexivity|].
  apply (X8_compare_in_workspace_of_body
           Samples.env_a
           (ApiClient.mkLocalStorage (Some "token") (Some "ws-1"))
           Samples.alice "ws-1" MoreSamples.compare_foreign
           MoreSamples.store_two_workspaces MoreSamples.foreign_patent);
    reflexivity.
Defined.

(* ------------------------------------------------------------------ *)
(** ** Search and listing *)

(** The mock search score at the first eleven positions. *)
Lemma mock_search_score_in_unit_interval (index : nat) :
  index < 11 ->
  Js.in_unit_interval (1.0 - Js.of_index index * 0.1)%float = true.
Proof.
  intros H.
  do 11 (destruct index as [|index]; [vm_compute; reflexivity|]).
  lia.
Qed.

(** Search by a signed-in user with a workspace header, store included. *)
Lemma searchPatents_with_header find_take env body req st u ws :
  user req = Some u ->
  header_x_workspace_id req = Some ws ->
  Js.truthy ws = true ->
  let k := match SearchRequest.k body with Some k => k | None => 10%Z end in
  let search_type :=
    match SearchRequest.search_type body with
    | Some t => t | None => hybrid end in
  let results :=
    Js.mapi (fun patent index =>
               SearchResult.mk (Patent.id patent)
                               (1.0 - Js.of_index index * 0.1)%float
                               "hybrid" (Patent.title patent)
                               (Patent.abstract patent)
                               (Patent.prio_date patent))
            (find_take (patents st) ws k) in
  searchPatents find_take env body req st
  = (inr (SearchResponse.mk results (length results) (generateSearchId env)),
     audited
       (AuditLog.mk ws (User.id u) "patent_search" "search" None
                    (SearchDetails (SearchRequest.query body)
                                   (SearchRequest.filters body) k search_type
                                   (generateSearchId env)))
       ("Publishing search event " ++ generateSearchId env
          ++ " for query: " ++ SearchRequest.query body)
       (with_new_session
          (SearchSession.mk ws (User.id u) (SearchRequest.query body)
                            (match SearchRequest.filters body with
                             | Some f => f
                             | None => SearchFilters.empty
                             end)
                            results)
          st)).
Proof.
  intros Hu Hh Ht. unfold searchPatents, getMockSearchResults. step_handler.
  rewrite Hu, Hh. unfold Js.or_else. rewrite Ht. reflexivity.
Qed.

(** X9. Search needs the workspace in the header. A signed-in member whose
    request names the workspace only in the query string passes the guard,
    and the search handler then fails with status 500 and the message
    "Failed to search patents: Workspace ID required", without writing
    anything. *)
Theorem X9_search_requires_header find_take env body request st u ws :
  user request = Some u ->
  (header_x_workspace_id request = None
   \/ header_x_workspace_id request = Some "") ->
  query_workspace_id request = Some ws ->
  Js.truthy ws = true ->
  is_member (User.id u) ws st = true ->
  Routes.post_search find_take env body request st
  = (inl (mkHttpException "Failed to search patents: Workspace ID required"
                          INTERNAL_SERVER_ERROR),
     st).
Proof.
  intros Hu Hh Hq Ht Hmember.
  assert (Hws : guard_workspace_id request None = Some ws).
  { unfold guard_workspace_id. rewrite Hq.
    destruct Hh as [Hh | Hh]; rewrite Hh; simpl; rewrite Ht; reflexivity. }
  unfold Routes.post_search.
  rewrite (guarded_member _ request None st u ws Hu Hws Hmember).
  unfold searchPatents. step_handler. rewrite Hu.
  destruct Hh as [Hh | Hh]; rewrite Hh; reflexivity.
Qed.

Lemma X9_witness_workspace_in_query :
  Routes.post_search MoreSamples.first_patents Samples.env_a
                     MoreSamples.search_any
                     (mkRequest (Some Samples.alice) None (Some "ws-1"))
                     Samples.store_full
  = (inl (mkHttpException "Failed to search patents: Workspace ID required"
                          INTERNAL_SERVER_ERROR),
     Samples.store_full).
Proof.
  apply (X9_search_requires_header
           MoreSamples.first_patents Samples.env_a MoreSamples.search_any
           (mkRequest (Some Samples.alice) None (Some "ws-1"))
           Samples.store_full Samples.alice "ws-1");
    [reflexivity | left; reflexivity | reflexivity | reflexivity
     | reflexivity].
Defined.

(** X10. A search by a signed-in user with a workspace header is always
    answered: the results are the patents found for that workspace with
    [take] equal to [k] (10 when the body has none), in the order found;
    [total] is their number; the search is recorded once as a search
    session holding the same results, and audited once. *)
Theorem X10_search_answer find_take env body req st u ws :
  user req = Some u ->
  header_x_workspace_id req = Some ws ->
  Js.truthy ws = true ->
  exists resp session row line,
    searchPatents find_take env body req st
    = (inr resp, audited row line (with_new_session session st))
    /\ map SearchResult.patent_id (SearchResponse.results resp)
       = map Patent.id
             (find_take (patents st) ws
                (match SearchRequest.k body with
                 | Some k => k
                 | None => 10%Z
                 end))
    /\ SearchResponse.total resp = length (SearchResponse.results resp)
    /\ SearchSession.results session = SearchResponse.results resp
    /\ SearchSession.workspace_id session = ws
    /\ AuditLog.action row = "patent_search".
Proof.
  intros Hu Hh Ht. do 4 eexists. split.
  - exact (searchPatents_with_header find_take env body req st u ws Hu Hh Ht).
  - cbn [SearchResponse.results SearchResponse.total SearchSession.results
         SearchSession.workspace_id AuditLog.action].
    split; [|repeat split].
    unfold Js.mapi. rewrite mapi_from_map.
    cbn [SearchResult.patent_id].
    generalize (find_take (patents st) ws
                  (match SearchRequest.k body with
                   | Some k => k
                   | None => 10%Z
                   end)).
    intros found. generalize 0.
    induction found as [|p rest IH]; intros start; simpl;
      [reflexivity|].
    now rewrite IH.
Qed.

Lemma X10_witness_sample_search :
  exists resp session row line,
    searchPatents MoreSamples.first_patents Samples.env_a
                  MoreSamples.search_any Samples.request_alice
                  MoreSamples.store_two_workspaces
    = (inr resp,
       audited row line
               (with_new_session session MoreSamples.store_two_workspaces))
    /\ map SearchResult.patent_id (SearchResponse.results resp)
       = ["pat-target"]
    /\ SearchResponse.total resp = length (SearchResponse.results resp)
    /\ SearchSession.results session = SearchResponse.results resp
    /\ SearchSession.workspace_id session = "ws-1"
    /\ AuditLog.action row = "patent_search".
Proof.
  apply (X10_search_answer MoreSamples.first_patents Samples.env_a
                           MoreSamples.search_any Samples.request_alice
                           MoreSamples.store_two_workspaces Samples.alice
                           "ws-1"); reflexivity.
Defined.

(** X11. When the search of a signed-in user with a workspace header
    finds at most eleven patents, every score of the answer lies in [0,1];
    the score of the first result is 1. *)
Theorem X11_search_scores_up_to_eleven find_take env body req st u ws :
  user req = Some u ->
  header_x_workspace_id req = Some ws ->
  Js.truthy ws = true ->
  length (find_take (patents st) ws
            (match SearchRequest.k body with
             | Some k => k
             | None => 10%Z
             end)) <= 11 ->
  exists resp,
    run (searchPatents find_take env body req) st = inr resp
    /\ Forall (fun r => Js.in_unit_interval (SearchResult.score r) = true)
              (SearchResponse.results resp)
    /\ (forall first rest,
           SearchResponse.results resp = first :: rest ->
           SearchResult.score first = 1%float).
Proof.
  intros Hu Hh Ht Hlen. eexists. split.
  - unfold run.
    rewrite (searchPatents_with_header find_take env body req st u ws
                                       Hu Hh Ht).
    reflexivity.
  - cbn [SearchResponse.results]. split.
    + unfold Js.mapi. apply mapi_from_Forall.
      intros p index Hindex. cbn [SearchResult.score].
      apply mock_search_score_in_unit_interval. lia.
    + intros first rest Hres. unfold Js.mapi in Hres.
      destruct (find_take (patents st) ws _) as [|p found];
        simpl in Hres; [discriminate|].
      inversion Hres. reflexivity.
Qed.

Lemma X11_witness_one_result :
  exists resp,
    run (searchPatents MoreSamples.first_patents Samples.env_a
                       MoreSamples.search_any Samples.request_alice)
        MoreSamples.store_two_workspaces = inr resp
    /\ Forall (fun r => Js.in_unit_interval (SearchResult.score r) = true)
              (SearchResponse.results resp)
    /\ (forall first rest,
           SearchResponse.results resp = first :: rest ->
           SearchResult.score first = 1%float).
Proof.
  apply (X11_search_scores_up_to_eleven
           MoreSamples.first_patents Samples.env_a MoreSamples.search_any
           Samples.request_alice MoreSamples.store_two_workspaces
           Samples.alice "ws-1");
    [reflexivity | reflexivity | reflexivity | vm_compute; lia].
Defined.



(* ------------------------------------------------------------------ *)
(** ** Generated identifiers *)

Lemma no_underscore_uint (d : Decimal.uint) :
  no_underscore (NilEmpty.string_of_uint d) = true.
Proof. induction d; simpl; auto. Qed.

Lemma no_underscore_int_to_string (z : Z) :
  no_underscore (Js.int_to_string z) = true.
Proof.
  unfold Js.int_to_string, NilZero.string_of_int, NilZero.string_of_uint.
  destruct (Z.to_int z) as [d|d]; destruct d; simpl;
    try reflexivity; apply no_underscore_uint.
Qed.

(** A string is cut at its first underscore in one way only. *)
Lemma cut_at_first_underscore (a b r1 r2 : string) :
  no_underscore a = true ->
  no_underscore b = true ->
  a ++ String "_" r1 = b ++ String "_" r2 ->
  a = b /\ r1 = r2.
Proof.
  revert b. induction a as [|c a IH]; intros [|c' b] Ha Hb H; simpl in *.
  - inversion H. auto.
  - inversion H; subst c'. simpl in Hb. discriminate.
  - inversion H; subst c. simpl in Ha. discriminate.
  - apply andb_prop in Ha. apply andb_prop in Hb.
    destruct Ha as [_ Ha]. destruct Hb as [_ Hb].
    inversion H; subst c'.
    destruct (IH b Ha Hb H2) as [-> ->]. auto.
Qed.

Lemma int_to_string_inj (z1 z2 : Z) :
  Js.int_to_string z1 = Js.int_to_string z2 -> z1 = z2.
Proof.
  unfold Js.int_to_string. intros H.
  assert (Hnil : forall z, Z.to_int z <> Decimal.Pos Decimal.Nil
                           /\ Z.to_int z <> Decimal.Neg Decimal.Nil).
  { intros [|p|p]; simpl; split; try discriminate;
      intros Heq; inversion Heq as [Hp];
      exact (DecimalPos.Unsigned.to_uint_nonnil p Hp). }
  apply DecimalZ.to_int_inj.
  destruct (Hnil z1) as [H1 H1'], (Hnil z2) as [H2 H2'].
  pose proof (NilZero.isi _ H1 H1') as E1.
  pose proof (NilZero.isi _ H2 H2') as E2.
  rewrite H in E1. congruence.
Qed.

Lemma substring_length_le (n m : nat) (s : string) :
  String.length (substring n m s) <= m.
Proof.
  revert n m. induction s as [|c s IH]; intros n m.
  - destruct n, m; simpl; lia.
  - destruct n as [|n].
    + destruct m as [|m]; simpl; [lia|]. specialize (IH 0 m). lia.
    + simpl. apply IH.
Qed.

Lemma append_cancel_l (p a b : string) : p ++ a = p ++ b -> a = b.
Proof.
  induction p as [|c p IH]; simpl; intros H; [exact H|].
  inversion H. auto.
Qed.

(** X13. Generated identifiers of two different kinds (search, compare,
    novelty, chart, export) are never equal. Two identifiers of the same
    kind are equal only if they were made at the same clock value with the
    same random part; the random part has at most nine characters. *)
Theorem X13_generated_ids_distinct :
  (forall kind1 kind2 env1 env2,
      In kind1 id_kinds -> In kind2 id_kinds -> kind1 <> kind2 ->
      generateId kind1 env1 <> generateId kind2 env2)
  /\ (forall kind env1 env2,
         generateId kind env1 = generateId kind env2 ->
         now env1 = now env2
         /\ Js.substr 2 9 (random_base36 env1)
            = Js.substr 2 9 (random_base36 env2))
  /\ (forall env,
         String.length (Js.substr 2 9 (random_base36 env)) <= 9).
Proof.
  split; [|split].
  - intros kind1 kind2 env1 env2 H1 H2 Hne.
    unfold id_kinds in H1, H2. simpl in H1, H2.
    repeat match goal with
           | H : _ \/ _ |- _ => destruct H as [H | H]
           | H : False |- _ => destruct H
           end; subst kind1 kind2;
      try (exfalso; apply Hne; reflexivity);
      unfold generateId; simpl; discriminate.
  - intros kind env1 env2 H. unfold generateId in H.
    apply append_cancel_l in H. simpl in H. inversion H as [H'].
    apply cut_at_first_underscore in H';
      try apply no_underscore_int_to_string.
    destruct H' as [Hnow Hrandom]. split; [|exact Hrandom].
    apply int_to_string_inj. exact Hnow.
  - intros env. apply substring_length_le.
Qed.

(* ------------------------------------------------------------------ *)
(** ** The mock alignments and the alignment table *)

Lemma mapi_from_seq {A B : Type} (g : nat -> B) (xs : list A) :
  forall start,
    Js.mapi_from start (fun _ i => g i) xs = map g (seq start (length xs)).
Proof.
  induction xs as [|x rest IH]; intros start; simpl; [reflexivity|].
  now rewrite IH.
Qed.

Lemma mapi_from_later_labels (rest : list string) :
  forall n,
    Js.mapi_from (S n)
      (fun (_ : string) (i : nat) =>
         if Nat.eqb i 0 then "high_similarity" else "medium_similarity")
      rest
    = map (fun _ => "medium_similarity") rest.
Proof.
  induction rest as [|x rest IH]; intros n; simpl; [reflexivity|].
  now rewrite IH.
Qed.

(** X14. Compare builds one alignment per reference: the alignment at
    position i has clause index i, the texts are numbered from 1, the
    first label is [high_similarity] and every later one
    [medium_similarity]; an empty list of references gives no alignment. *)
Theorem X14_mock_alignments_shape patent_id claim_num refs :
  length (getMockAlignments patent_id claim_num refs) = length refs
  /\ map AlignmentItem.clause_index
         (getMockAlignments patent_id claim_num refs)
     = seq 0 (length refs)
  /\ map AlignmentItem.reference_clause_text
         (getMockAlignments patent_id claim_num refs)
     = map (fun i => "Mock reference clause " ++ Js.nat_to_string (i + 1))
           (seq 0 (length refs))
  /\ map AlignmentItem.alignment_type
         (getMockAlignments patent_id claim_num refs)
     = match refs with
       | [] => []
       | _ :: rest =>
           "high_similarity" :: map (fun _ => "medium_similarity") rest
       end.
Proof.
  unfold getMockAlignments, Js.mapi.
  split; [apply mapi_from_length|].
  rewrite !mapi_from_map. cbn [AlignmentItem.clause_index
    AlignmentItem.reference_clause_text AlignmentItem.alignment_type].
  split; [|split].
  - rewrite (mapi_from_seq (fun i => i)). apply map_id.
  - apply (mapi_from_seq
             (fun i => "Mock reference clause " ++ Js.nat_to_string (i + 1))).
  - destruct refs as [|r rest]; [reflexivity|].
    cbn [Js.mapi_from Nat.eqb]. f_equal. apply mapi_from_later_labels.
Qed.

(** X15. Every label the compare operation emits has a style of its own
    in the alignment table (yellow for the first alignment, orange for the
    others), while each of the four labels overlap, paraphrase, gap and
    ambiguous falls to the default gray style and icon. *)
Theorem X15_alignment_table_styles_mock_labels :
  (forall patent_id claim_num refs,
      Forall (fun a =>
                AlignmentTable.getAlignmentColor
                  (AlignmentItem.alignment_type a)
                = (if Nat.eqb (AlignmentItem.clause_index a) 0
                   then "text-yellow-600 bg-yellow-50"
                   else "text-orange-600 bg-orange-50")
                /\ AlignmentTable.getAlignmentIcon
                     (AlignmentItem.alignment_type a)
                   = (if Nat.eqb (AlignmentItem.clause_index a) 0
                      then ("CheckCircle", "h-4 w-4 text-yellow-500")
                      else ("AlertTriangle", "h-4 w-4 text-orange-500")))
             (getMockAlignments patent_id claim_num refs))
  /\ (forall label,
         In label spec_alignment_labels ->
         AlignmentTable.getAlignmentColor label = "text-gray-600 bg-gray-50"
         /\ AlignmentTable.getAlignmentIcon label
            = ("AlertTriangle", "h-4 w-4 text-gray-500")).
Proof.
  split.
  - intros patent_id claim_num refs. unfold getMockAlignments, Js.mapi.
    apply mapi_from_Forall. intros ref_id index _.
    cbn [AlignmentItem.alignment_type AlignmentItem.clause_index].
    destruct index; split; reflexivity.
  - intros label Hin. unfold spec_alignment_labels in Hin. simpl in Hin.
    repeat match goal with
           | H : _ \/ _ |- _ => destruct H as [H | H]
           | H : False |- _ => destruct H
           end; subst label; split; reflexivity.
Qed.

(* ------------------------------------------------------------------ *)
(** ** The novelty card *)

(** The order of binary64 values is transitive. *)
Lemma SFleb_trans (a b c : spec_float) :
  SFleb a b = true -> SFleb b c = true -> SFleb a c = true.
Proof.
  unfold SFleb, SFcompare.
  destruct a as [sa|sa| |sa ma ea], b as [sb|sb| |sb mb eb],
           c as [sc|sc| |sc mc ec];
    try destruct sa; try destruct sb; try destruct sc;
    try discriminate; try reflexivity;
    change (PosDef.Pos.compare_cont Eq) with Pos.compare;
    repeat match goal with
      | |- context [(?x ?= ?y)%Z] => destruct (Z.compare_spec x y)
      | |- context [(?x ?= ?y)%positive] => destruct (Pos.compare_spec x y)
      end;
    simpl; try discriminate; try reflexivity; intros; try lia.
Qed.

Lemma leb_trans (a b c : float) :
  PrimFloat.leb a b = true -> PrimFloat.leb b c = true ->
  PrimFloat.leb a c = true.
Proof. rewrite !FloatAxioms.leb_spec. apply SFleb_trans. Qed.

(** X16. The color and the icon of a novelty score agree at both ends:
    a score is shown red exactly when its icon is the falling trend (this
    is the case of every score below 0.4 and of NaN), and a score shown
    green always has the rising trend icon. *)
Theorem X16_novelty_color_and_icon_agree (score : Js.number) :
  (NoveltyCard.getNoveltyColor score = "text-red-600"
   <-> NoveltyCard.getNoveltyIcon score
       = ("TrendingDown", "h-4 w-4 text-red-500"))
  /\ (NoveltyCard.getNoveltyColor score = "text-red-600"
      <-> PrimFloat.leb 0.4 score = false)
  /\ (NoveltyCard.getNoveltyColor score = "text-green-600" ->
      NoveltyCard.getNoveltyIcon score
      = ("TrendingUp", "h-4 w-4 text-green-500")).
Proof.
  unfold NoveltyCard.getNoveltyColor, NoveltyCard.getNoveltyIcon.
  assert (H84 : PrimFloat.leb 0.8 score = true ->
                PrimFloat.leb 0.4 score = true)
    by (apply leb_trans; vm_compute; reflexivity).
  assert (H64 : PrimFloat.leb 0.6 score = true ->
                PrimFloat.leb 0.4 score = true)
    by (apply leb_trans; vm_compute; reflexivity).
  assert (H74 : PrimFloat.leb 0.7 score = true ->
                PrimFloat.leb 0.4 score = true)
    by (apply leb_trans; vm_compute; reflexivity).
  assert (H87 : PrimFloat.leb 0.8 score = true ->
                PrimFloat.leb 0.7 score = true)
    by (apply leb_trans; vm_compute; reflexivity).
  destruct (PrimFloat.leb 0.8 score) eqn:E8;
    destruct (PrimFloat.leb 0.6 score) eqn:E6;
    destruct (PrimFloat.leb 0.7 score) eqn:E7;
    destruct (PrimFloat.leb 0.4 score) eqn:E4;
    try (specialize (H84 eq_refl); discriminate);
    try (specialize (H64 eq_refl); discriminate);
    try (specialize (H74 eq_refl); discriminate);
    try (specialize (H87 eq_refl); discriminate);
    repeat split; intros; try reflexivity; try discriminate.
Qed.

(* ------------------------------------------------------------------ *)
(** ** Database configuration *)

(** X17. Whatever the process environment holds, the exported
    [databaseConfig] has schema synchronisation and query logging on
    exactly when NODE_ENV is development and SSL on exactly when it is
    production, so synchronisation and SSL are never on together; with
    NODE_ENV unset all three are off. *)
Theorem X17_database_config_flags (env : DatabaseConfig.ProcessEnv) :
  (DatabaseConfig.synchronize env = true
   <-> env "NODE_ENV" = Some "development")
  /\ DatabaseConfig.logging env = DatabaseConfig.synchronize env
  /\ (DatabaseConfig.ssl env = Some false
      <-> env "NODE_ENV" = Some "production")
  /\ ~ (DatabaseConfig.synchronize env = true
        /\ DatabaseConfig.ssl env <> None)
  /\ (env "NODE_ENV" = None ->
      DatabaseConfig.synchronize env = false
      /\ DatabaseConfig.ssl env = None).
Proof.
  unfold DatabaseConfig.synchronize, DatabaseConfig.logging,
    DatabaseConfig.ssl, DatabaseConfig.node_env_is.
  destruct (env "NODE_ENV") as [v|].
  - split; [|split; [reflexivity|split; [|split]]].
    + rewrite String.eqb_eq. split; congruence.
    + destruct (v =? "production") eqn:E.
      * apply String.eqb_eq in E. subst v. split; reflexivity.
      * split; [discriminate|]. intros H. inversion H; subst v.
        discriminate.
    + intros [Hs Hssl]. apply String.eqb_eq in Hs. subst v.
      apply Hssl. reflexivity.
    + discriminate.
  - repeat split; try discriminate; try reflexivity.
    intros [Hs _]. discriminate.
Qed.

(* ------------------------------------------------------------------ *)
(** ** The claim viewer *)

Lemma has_filter_other (s : ClaimViewer.NumberSet) (n m : Z) :
  m <> n ->
  ClaimViewer.has (ClaimViewer.delete s n) m = ClaimViewer.has s m.
Proof.
  intros Hne. unfold ClaimViewer.has, ClaimViewer.delete.
  induction s as [|x s IH]; simpl; [reflexivity|].
  destruct (Z.eqb_spec n x) as [->|Hnx]; simpl.
  - destruct (Z.eqb_spec m x); [contradiction|exact IH].
  - now rewrite IH.
Qed.

Lemma has_delete_same (s : ClaimViewer.NumberSet) (n : Z) :
  ClaimViewer.has (ClaimViewer.delete s n) n = false.
Proof.
  unfold ClaimViewer.has, ClaimViewer.delete.
  induction s as [|x s IH]; simpl; [reflexivity|].
  destruct (Z.eqb_spec n x) as [->|Hnx]; simpl; [exact IH|].
  destruct (Z.eqb_spec n x); [contradiction|exact IH].
Qed.

Lemma has_app (s t : ClaimViewer.NumberSet) (m : Z) :
  ClaimViewer.has (s ++ t)%list m
  = (ClaimViewer.has s m || ClaimViewer.has t m)%bool.
Proof. unfold ClaimViewer.has. apply existsb_app. Qed.

(** X18. Toggling a claim flips whether that claim is expanded and leaves
    every other claim as it was; the set keeps each number at most once;
    toggling the same claim twice gives back the same expanded claims. *)
Theorem X18_toggle_claim (expanded : ClaimViewer.NumberSet) (n : Z) :
  ClaimViewer.has (ClaimViewer.toggleClaim expanded n) n
  = negb (ClaimViewer.has expanded n)
  /\ (forall m, m <> n ->
                ClaimViewer.has (ClaimViewer.toggleClaim expanded n) m
                = ClaimViewer.has expanded m)
  /\ (NoDup expanded -> NoDup (ClaimViewer.toggleClaim expanded n))
  /\ (forall m,
         ClaimViewer.has
           (ClaimViewer.toggleClaim (ClaimViewer.toggleClaim expanded n) n) m
         = ClaimViewer.has expanded m).
Proof.
  assert (Hsame : forall s,
             ClaimViewer.has (ClaimViewer.toggleClaim s n) n
             = negb (ClaimViewer.has s n)).
  { intros s. unfold ClaimViewer.toggleClaim, ClaimViewer.add.
    destruct (ClaimViewer.has s n) eqn:E; simpl.
    - apply has_delete_same.
    - rewrite has_app, E. unfold ClaimViewer.has. simpl.
      now rewrite Z.eqb_refl. }
  assert (Hother : forall s m, m <> n ->
             ClaimViewer.has (ClaimViewer.toggleClaim s n) m
             = ClaimViewer.has s m).
  { intros s m Hne. unfold ClaimViewer.toggleClaim, ClaimViewer.add.
    destruct (ClaimViewer.has s n) eqn:E.
    - now apply has_filter_other.
    - rewrite has_app. unfold ClaimViewer.has at 2. simpl.
      destruct (Z.eqb_spec m n); [contradiction|].
      now rewrite !orb_false_r. }
  split; [apply Hsame|]. split; [apply Hother|]. split.
  - intros Hnd. unfold ClaimViewer.toggleClaim, ClaimViewer.add.
    destruct (ClaimViewer.has expanded n) eqn:E.
    + unfold ClaimViewer.delete. now apply NoDup_filter.
    + apply NoDup_app; [exact Hnd|repeat constructor; intros []|].
      intros x Hin [Hx|[]]. subst x.
      unfold ClaimViewer.has in E.
      assert (existsb (Z.eqb n) expanded = true)
        by (apply existsb_exists; exists n; split;
            [exact Hin|apply Z.eqb_refl]).
      congruence.
  - intros m. destruct (Z.eq_dec m n) as [->|Hne].
    + rewrite !Hsame. apply negb_involutive.
    + now rewrite !Hother.
Qed.
